(** * Todo list application: validator, task entity, storage adapter, controller

    A shallow embedding of the JavaScript modules
      - [public/assets/js/utils/TodoValidator.js]   (module [TodoValidator])
      - [public/assets/js/models/TodoItem.js]       (module [TodoItem])
      - [public/assets/js/services/TodoStorage.js]  (module [TodoStorage])
      - [public/assets/js/services/TodoList.js]     (module [TodoList])
      - the [TodoList] class of [tests/TodoList.test.js] (module [TestTodoList])
    followed by the properties of the task-management contract.

    Conventions of the embedding.
      - A JavaScript string is the list of its UTF-16 code units, so that
        [length] is the [.length] of the source.
      - A JavaScript value is a term of [value]; numbers are the integers.
        The one number the program computes with, the completion rate, is
        a binary64 float, as in the source.
      - An exception is a value of [outcome]; [try/catch] is a [match].
      - What an operation does to the page, to [localStorage] and to the
        notification area is appended to the [trace] of the application. *)

From Stdlib Require Import ZArith NArith Uint63 Floats List String Ascii Lia.
From stdpp Require Import base option list.
Import ListNotations.

Local Open Scope Z_scope.
Local Open Scope list_scope.

(** ** JavaScript strings *)

Module JsString.

(** UTF-16 code units. *)
Definition jsstring := list N.

(** Code units of an ASCII literal. *)
Fixpoint lit (s : string) : jsstring :=
  match s with
  | EmptyString => []
  | String a s' => N_of_ascii a :: lit s'
  end.

(** ECMAScript [WhiteSpace] and [LineTerminator] code points, the
    characters [String.prototype.trim] strips. *)
Definition isWhiteSpace (c : N) : bool :=
  ((9 <=? c) && (c <=? 13)          (* TAB, LF, VT, FF, CR *)
   || (c =? 32)                     (* SPACE *)
   || (c =? 160)                    (* NO-BREAK SPACE *)
   || (c =? 5760)                   (* OGHAM SPACE MARK *)
   || (8192 <=? c) && (c <=? 8202)  (* EN QUAD .. HAIR SPACE *)
   || (c =? 8232) || (c =? 8233)    (* LINE / PARAGRAPH SEPARATOR *)
   || (c =? 8239) || (c =? 8287)    (* NARROW NBSP, MEDIUM MATH SPACE *)
   || (c =? 12288)                  (* IDEOGRAPHIC SPACE *)
   || (c =? 65279))%N.              (* ZERO WIDTH NO-BREAK SPACE (BOM) *)

Fixpoint trimStart (s : jsstring) : jsstring :=
  match s with
  | c :: s' => if isWhiteSpace c then trimStart s' else s
  | [] => []
  end.

Definition trimEnd (s : jsstring) : jsstring :=
  rev (trimStart (rev s)).

(** [s.trim()] *)
Definition trim (s : jsstring) : jsstring := trimEnd (trimStart s).

(** [!s] for a string: only the empty string is falsy. *)
Definition is_empty (s : jsstring) : bool :=
  match s with [] => true | _ => false end.

(** ['a'.repeat(n)] for a one-unit string. *)
Definition repeat_unit (c : N) (n : nat) : jsstring := repeat c n.

End JsString.
Import JsString.

(** ** JavaScript values and exceptions *)

#[warnings="-register-all"]
Inductive value : Type :=
| VUndefined
| VNull
| VBool (b : bool)
| VNum (n : Z)
| VStr (s : jsstring)
| VArr (elems : list value)
| VObj (props : list (string * value)).

Inductive jstype := TUndefined | TObject | TBoolean | TNumber | TString.

Definition jstype_eqb (a b : jstype) : bool :=
  match a, b with
  | TUndefined, TUndefined | TObject, TObject | TBoolean, TBoolean
  | TNumber, TNumber | TString, TString => true
  | _, _ => false
  end.

(** [typeof v] *)
Definition typeof (v : value) : jstype :=
  match v with
  | VUndefined => TUndefined
  | VNull | VArr _ | VObj _ => TObject
  | VBool _ => TBoolean
  | VNum _ => TNumber
  | VStr _ => TString
  end.

(** Truthiness, as used by [!v], [v || w], [if (v)] and [filter(Boolean)]. *)
Definition truthy (v : value) : bool :=
  match v with
  | VUndefined | VNull => false
  | VBool b => b
  | VNum n => negb (n =? 0)
  | VStr s => negb (is_empty s)
  | VArr _ | VObj _ => true
  end.

Inductive exn :=
| SyntaxError              (* raised by [JSON.parse] *)
| TypeError                (* property of null/undefined, call of a non-function *)
| DOMException             (* raised by [localStorage] *)
| Error (message : string) (* [new Error(message)] *).

Inductive outcome (A : Type) : Type :=
| Ok (a : A)
| Throw (e : exn).
Arguments Ok {A} a.
Arguments Throw {A} e.

(** Sequencing: an exception skips the rest of the block. *)
#[global] Instance outcome_bind : MBind outcome := fun A B k m =>
  match m with
  | Ok a => k a
  | Throw e => Throw e
  end.

(** Own property named [k] of an object literal. *)
Fixpoint lookup_prop (k : string) (props : list (string * value)) : option value :=
  match props with
  | [] => None
  | (k', v) :: rest => if String.eqb k k' then Some v else lookup_prop k rest
  end.

(** [v.k] for the property names the program reads ([id], [text],
    [completed], [createdAt]); none of them is defined on a prototype. *)
Definition prop (v : value) (k : string) : outcome value :=
  match v with
  | VUndefined | VNull => Throw TypeError
  | VObj props => Ok (default VUndefined (lookup_prop k props))
  | _ => Ok VUndefined
  end.

(** [k in v], for [v] of type object and not null. *)
Definition has_prop (k : string) (v : value) : bool :=
  match v with
  | VObj props => bool_decide (is_Some (lookup_prop k props))
  | _ => false
  end.

(** What the program takes from the JavaScript engine: the JSON parser and
    the date parser behind [new Date(s)]. *)
Class Platform := {
  JSON_parse : jsstring -> outcome value;
  (** [new Date(s).toString() !== 'Invalid Date'] *)
  Date_valid : jsstring -> bool
}.

(** One reading of the system clock by the [TodoItem] constructor:
    [Date.now()] and [new Date().toISOString()]. *)
Record Clock := { Date_now : Z; Date_toISOString : jsstring }.

(** ** TodoValidator *)

Record Validation := { isValid : bool; error : option string }.

Module TodoValidator.

Definition MIN_LENGTH : nat := 1.
Definition MAX_LENGTH : nat := 100.

Definition validateText (text : jsstring) : Validation :=
  let trimmedText := trim text in
  if is_empty trimmedText then
    {| isValid := false; error := Some "Please enter a task!"%string |}
  else if (MAX_LENGTH <? length trimmedText)%nat then
    {| isValid := false;
       error := Some "Task is too long! Maximum 100 characters."%string |}
  else if (length trimmedText <? MIN_LENGTH)%nat then
    {| isValid := false;
       error := Some "Task must have at least one character."%string |}
  else
    {| isValid := true; error := None |}.

Definition invalid (msg : string) : Validation :=
  {| isValid := false; error := Some msg |}.
Definition valid : Validation := {| isValid := true; error := None |}.

(** [validateText] applied to an arbitrary value: [text.trim()] raises a
    [TypeError] unless [text] is a string. *)
Definition validateText_any (text : value) : outcome Validation :=
  match text with
  | VStr s => Ok (validateText s)
  | _ => Throw TypeError
  end.

(** [id <= 0], reached only when [typeof id === 'number']. *)
Definition le_zero (id : value) : bool :=
  match id with VNum n => n <=? 0 | _ => false end.

Definition validateId (id : value) : Validation :=
  if negb (truthy id) || negb (jstype_eqb (typeof id) TNumber) || le_zero id
  then invalid "Invalid todo ID"
  else valid.

Definition isValidDate `{Platform} (dateString : value) : bool :=
  match dateString with VStr s => Date_valid s | _ => false end.

Definition requiredFields : list string :=
  ["id"; "text"; "completed"; "createdAt"]%string.

Definition validateTodoObject `{Platform} (todo : value) : outcome Validation :=
  if negb (truthy todo) || negb (jstype_eqb (typeof todo) TObject) then
    Ok (invalid "Invalid todo object")
  else
    match find (fun field => negb (has_prop field todo)) requiredFields with
    | Some field => Ok (invalid ("Missing required field: " ++ field))
    | None =>
      text ← prop todo "text";
      textValidation ← validateText_any text;
      if negb (isValid textValidation) then Ok textValidation else
      id ← prop todo "id";
      let idValidation := validateId id in
      if negb (isValid idValidation) then Ok idValidation else
      completed ← prop todo "completed";
      if negb (jstype_eqb (typeof completed) TBoolean) then
        Ok (invalid "Completed field must be a boolean")
      else
      createdAt ← prop todo "createdAt";
      if negb (jstype_eqb (typeof createdAt) TString)
         || negb (isValidDate createdAt) then
        Ok (invalid "Invalid createdAt date")
      else Ok valid
    end.

(** [sanitizeText(text)]: the empty string for a non-string. *)
Definition sanitizeText (text : value) : jsstring :=
  if negb (jstype_eqb (typeof text) TString) then []
  else match text with VStr s => trim s | _ => [] end.

(** [isWhitespaceOnly(text)] *)
Definition isWhitespaceOnly (text : jsstring) : bool :=
  (length (trim text) =? 0)%nat.

End TodoValidator.

(** ** TodoItem *)

Module TodoItem.

Record t := { id : value; text : value; completed : value; createdAt : value }.

(** [new TodoItem(text, id)]; the one-argument form passes [id = null]. *)
Definition new (c : Clock) (text id : value) : t :=
  {| id := if truthy id then id else VNum (Date_now c);
     text := text;
     completed := VBool false;
     createdAt := VStr (Date_toISOString c) |}.

(** [toggle()] assigns [!this.completed]; the returned value is the new flag. *)
Definition toggle (todo : t) : t :=
  {| id := id todo; text := text todo;
     completed := VBool (negb (truthy (completed todo)));
     createdAt := createdAt todo |}.

Definition complete (todo : t) : t :=
  {| id := id todo; text := text todo; completed := VBool true;
     createdAt := createdAt todo |}.

Definition uncomplete (todo : t) : t :=
  {| id := id todo; text := text todo; completed := VBool false;
     createdAt := createdAt todo |}.

Definition updateText (newText : jsstring) (todo : t) : t :=
  {| id := id todo; text := VStr (trim newText);
     completed := completed todo; createdAt := createdAt todo |}.

Definition toJSON (todo : t) : value :=
  VObj [("id", id todo); ("text", text todo);
        ("completed", completed todo); ("createdAt", createdAt todo)]%string.

Definition fromJSON (c : Clock) (data : value) : outcome t :=
  text' ← prop data "text";
  id' ← prop data "id";
  let todoItem := new c text' id' in
  completed' ← prop data "completed";
  createdAt' ← prop data "createdAt";
  Ok {| id := id todoItem; text := text todoItem;
        completed := completed'; createdAt := createdAt' |}.

(** [isValid()]:
    [this.text && this.text.trim().length > 0 && this.text.length <= 100].
    The result is the operand that decides the conjunction; [trim] on a
    truthy value that is not a string raises. *)
Definition isValid (todo : t) : outcome value :=
  if negb (truthy (text todo)) then Ok (text todo)
  else
    match text todo with
    | VStr s =>
      if negb (0 <? length (trim s))%nat then Ok (VBool false)
      else Ok (VBool (length s <=? 100)%nat)
    | _ => Throw TypeError
    end.

End TodoItem.

(** [array.map(f)] with a callback that may raise: elements are visited in
    order and the first exception ends the traversal. The callback also
    receives the index, which the program uses only to read the clock. *)
Fixpoint array_map {A B} (f : nat -> A -> outcome B) (i : nat) (l : list A)
  : outcome (list B) :=
  match l with
  | [] => Ok []
  | x :: l' =>
    y ← f i x;
    ys ← array_map f (S i) l';
    Ok (y :: ys)
  end.

(** Effects on the page, on [localStorage] and on the notification area. *)
Inductive kind := success | error_kind | info.

Inductive notice :=
| Plain (message : option string)
| ImportFailed (e : exn)   (* [`Import failed: ${error.message}`] *).

Inductive effect :=
| SetItem (key : string) (data : value)
    (* [localStorage.setItem(key, JSON.stringify(data))] *)
| RenderTodos (shown : list TodoItem.t)      (* [renderer.renderTodos] *)
| UpdateStats (total completed : nat)        (* [renderer.updateStats] *)
| ClearInput
| FocusInput
| Notify (k : kind) (m : notice).

(** ** TodoStorage *)

Module TodoStorage.

Definition storageKey : string := "todos".

(** The write is attempted inside [try/catch]; a failure of [setItem]
    is logged to the console and changes nothing else. *)
Definition saveTodos (todos : list TodoItem.t) : effect :=
  let todoData := map TodoItem.toJSON todos in
  SetItem storageKey (VArr todoData).

(** [todoData.map(...)] of the parsed value: only an array has [map]. *)
Definition map_call {B} (todoData : value) (f : value -> outcome B)
  : outcome (list B) :=
  match todoData with
  | VArr elems => array_map (fun _ => f) 0 elems
  | _ => Throw TypeError
  end.

(** [v !== undefined] *)
Definition is_defined (v : value) : bool :=
  match v with VUndefined => false | _ => true end.

(** The callback of [todoData.map]: the element itself when it has a
    [text], [null] otherwise. *)
Definition keep_text_bearing (data : value) : outcome value :=
  text ← prop data "text";
  if is_defined text then Ok data else Ok VNull.

(** [getItem] is the result of [localStorage.getItem(this.storageKey)]:
    the stored string, [None] for [null], or an exception. *)
Definition loadTodos `{Platform} (getItem : outcome (option jsstring))
  : list value :=
  let body : outcome (list value) :=
    storedData ← getItem;
    match storedData with
    | None => Ok []
    | Some stored =>
      if is_empty stored then Ok [] else
      todoData ← JSON_parse stored;
      mapped ← map_call todoData keep_text_bearing;
      Ok (List.filter truthy mapped)
    end in
  match body with
  | Ok todos => todos
  | Throw _ => []
  end.

End TodoStorage.

(** ** TodoList *)

(** The binary64 number of a count. Array lengths stay below 2^32, where
    the conversion is exact. *)
Definition number_of_nat (n : nat) : float :=
  PrimFloat.of_uint63 (Uint63.of_Z (Z.of_nat n)).

Record Stats := {
  total : nat;
  completed : nat;
  incomplete : nat;
  completionRate : float
}.

Module TodoList.

Record t := {
  todos : list TodoItem.t;
  (** value of the [#todoInput] element, [None] when the page has none *)
  todoInput : option jsstring;
  trace : list effect
}.

Definition set_todos (l : list TodoItem.t) (app : t) : t :=
  {| todos := l; todoInput := todoInput app; trace := trace app |}.

Definition emit (e : effect) (app : t) : t :=
  {| todos := todos app; todoInput := todoInput app;
     trace := trace app ++ [e] |}.

Definition showSuccess (m : notice) := emit (Notify success m).
Definition showError (m : notice) := emit (Notify error_kind m).
Definition showInfo (m : notice) := emit (Notify info m).

(** [todo.id === id] for a number [id]. *)
Definition id_is (id : Z) (todo : TodoItem.t) : bool :=
  match TodoItem.id todo with
  | VNum n => n =? id
  | _ => false
  end.

(** [this.todos.find(...)] and [this.todos.findIndex(...)] in one pass:
    the first matching task with its index. *)
Definition findTodo (id : Z) (app : t) : option (nat * TodoItem.t) :=
  list_find (fun todo => id_is id todo = true) (todos app).

Definition findTodoById (id : Z) (app : t) : option TodoItem.t :=
  snd <$> findTodo id app.

(** [None] stands for the index [-1]. *)
Definition findTodoIndexById (id : Z) (app : t) : option nat :=
  fst <$> findTodo id app.

Definition getCompletedTodos (app : t) : list TodoItem.t :=
  List.filter (fun todo => truthy (TodoItem.completed todo)) (todos app).

Definition getIncompleteTodos (app : t) : list TodoItem.t :=
  List.filter (fun todo => negb (truthy (TodoItem.completed todo))) (todos app).

Definition getStats (app : t) : Stats :=
  let total := length (todos app) in
  let completed := length (getCompletedTodos app) in
  let incomplete := length (getIncompleteTodos app) in
  {| total := total;
     completed := completed;
     incomplete := incomplete;
     completionRate :=
       if (0 <? total)%nat
       then PrimFloat.mul
              (PrimFloat.div (number_of_nat completed) (number_of_nat total))
              100%float
       else 0%float |}.

Definition saveTodos (app : t) : t :=
  emit (TodoStorage.saveTodos (todos app)) app.

Definition render (app : t) : t :=
  let app := emit (RenderTodos (todos app)) app in
  let stats := getStats app in
  emit (UpdateStats (total stats) (completed stats)) app.

(** [renderer.clearInput()]: the element, when present, gets the value ['']. *)
Definition clearInput (app : t) : t :=
  emit ClearInput
    {| todos := todos app; todoInput := (fun _ => []) <$> todoInput app;
       trace := trace app |}.

Definition focusInput (app : t) : t := emit FocusInput app.

(** The user types [text] into the input field. *)
Definition type_text (text : jsstring) (app : t) : t :=
  {| todos := todos app; todoInput := Some text; trace := trace app |}.

Definition addTodo (c : Clock) (app : t) : t :=
  match todoInput app with
  | None => app
  | Some text =>
    let validation := TodoValidator.validateText text in
    if negb (isValid validation) then
      showError (Plain (error validation)) app
    else
      let todoItem := TodoItem.new c (VStr text) VNull in
      let app := set_todos (todos app ++ [todoItem]) app in
      let app := saveTodos app in
      let app := render app in
      let app := clearInput app in
      let app := focusInput app in
      showSuccess (Plain (Some "Task added successfully!"%string)) app
  end.

(** The task found is mutated in place: the array holds the changed
    task at the index where the search stopped. *)
Definition toggleTodo (id : Z) (app : t) : t :=
  match findTodo id app with
  | Some (index, todo) =>
    let app := set_todos (<[index := TodoItem.toggle todo]> (todos app)) app in
    let app := saveTodos app in
    render app
  | None => app
  end.

Definition deleteTodo (id : Z) (app : t) : t :=
  match findTodoIndexById id app with
  | Some index =>
    let app := set_todos (delete index (todos app)) app in
    let app := saveTodos app in
    let app := render app in
    showInfo (Plain (Some "Task deleted!"%string)) app
  | None => app
  end.

Definition updateTodo (id : Z) (newText : jsstring) (app : t)
  : bool * t :=
  let validation := TodoValidator.validateText newText in
  if negb (isValid validation) then
    (false, showError (Plain (error validation)) app)
  else
    match findTodo id app with
    | Some (index, todo) =>
      let app :=
        set_todos (<[index := TodoItem.updateText newText todo]> (todos app))
                  app in
      let app := saveTodos app in
      (true, render app)
    | None => (false, app)
    end.

Definition clearAllTodos (app : t) : t :=
  let app := set_todos [] app in
  let app := saveTodos app in
  let app := render app in
  showInfo (Plain (Some "All tasks cleared!"%string)) app.

Definition clearCompletedTodos (app : t) : t :=
  let app := set_todos (getIncompleteTodos app) app in
  let app := saveTodos app in
  let app := render app in
  showInfo (Plain (Some "Completed tasks cleared!"%string)) app.

(** [Array.isArray(todoData)], else [throw new Error(...)]. *)
Definition expect_array (todoData : value) : outcome (list value) :=
  match todoData with
  | VArr elems => Ok elems
  | _ => Throw (Error "Invalid format: expected array")
  end.

(** The [for ... of] loop over the parsed array: raise at the first
    element [validateTodoObject] rejects. *)
Fixpoint validate_each `{Platform} (todoData : list value) : outcome unit :=
  match todoData with
  | [] => Ok tt
  | data :: rest =>
    validation ← TodoValidator.validateTodoObject data;
    if negb (isValid validation) then
      Throw (Error ("Invalid todo: " ++ default "null"%string (error validation)))
    else validate_each rest
  end.

(** [clock i] is the clock as read by the constructor of the [i]-th
    imported task. *)
Definition importTodos `{Platform} (clock : nat -> Clock)
    (jsonString : jsstring) (app : t) : bool * t :=
  let body : outcome t :=
    todoData ← JSON_parse jsonString;
    elems ← expect_array todoData;
    _ ← validate_each elems;
    imported ← array_map (fun i data => TodoItem.fromJSON (clock i) data) 0 elems;
    let app := set_todos imported app in
    let app := saveTodos app in
    let app := render app in
    Ok (showSuccess (Plain (Some "Todos imported successfully!"%string)) app) in
  match body with
  | Ok app' => (true, app')
  | Throw e => (false, showError (ImportFailed e) app)
  end.

(** [loadTodos()]: the stored records, each turned into a task.
    [clock i] is the clock as read by the constructor of the [i]-th one. *)
Definition loadTodos `{Platform} (clock : nat -> Clock)
    (getItem : outcome (option jsstring)) (app : t) : outcome t :=
  let storedTodos := TodoStorage.loadTodos getItem in
  loaded ← array_map (fun i todoData => TodoItem.fromJSON (clock i) todoData)
             0 storedTodos;
  Ok (set_todos loaded app).

End TodoList.

(** ** The TodoList class of the unit tests

    [tests/TodoList.test.js] carries its own [TodoList]: tasks are plain
    objects with the four fields, kept here in the same record, and
    notifications go through [showNotification]. *)

Module TestTodoList.

Import TodoList.

(** [this.todoInput.value]; the class has no guard for a missing element. *)
Definition input_value (app : TodoList.t) : outcome jsstring :=
  match todoInput app with
  | Some text => Ok text
  | None => Throw TypeError
  end.

Definition showNotification (message : string) (k : kind) : TodoList.t -> TodoList.t :=
  emit (Notify k (Plain (Some message))).

Definition addTodo (c : Clock) (app : TodoList.t) : outcome TodoList.t :=
  raw ← input_value app;
  let text := trim raw in
  if is_empty text then
    Ok (showNotification "Please enter a task!" error_kind app)
  else if (100 <? length text)%nat then
    Ok (showNotification "Task is too long! Maximum 100 characters."
          error_kind app)
  else
    let todo :=
      {| TodoItem.id := VNum (Date_now c);
         TodoItem.text := VStr text;
         TodoItem.completed := VBool false;
         TodoItem.createdAt := VStr (Date_toISOString c) |} in
    let app := set_todos (todos app ++ [todo]) app in
    let app := saveTodos app in
    let app := render app in
    let app := clearInput app in
    let app := focusInput app in
    Ok (showNotification "Task added successfully!" success app).

End TestTodoList.

(** ** Sample data

    A clock reading, a few records, and a platform whose [JSON.parse]
    knows the documents below and rejects every other string. *)

Module Demo.

(** The double-quote character, and a quoted JSON string. *)
Definition dq : jsstring := [34%N].
Definition q (s : string) : jsstring := dq ++ lit s ++ dq.

Definition created : jsstring := lit "2023-11-14T22:13:20.000Z".

Definition clock : Clock :=
  {| Date_now := 1700000000000; Date_toISOString := created |}.

Definition buy_milk : value :=
  VObj [("id", VNum 1700000000000); ("text", VStr (lit "Buy milk"));
        ("completed", VBool false); ("createdAt", VStr created)]%string.

(** A record without its [completed] field. *)
Definition walk_dog : value :=
  VObj [("id", VNum 1700000000001); ("text", VStr (lit "Walk dog"));
        ("createdAt", VStr created)]%string.

Definition text_only : value := VObj [("text", VStr (lit "a"))]%string.

Definition json_buy_milk : jsstring :=
  lit "{" ++ q "id" ++ lit ":1700000000000," ++ q "text" ++ lit ":"
  ++ q "Buy milk" ++ lit "," ++ q "completed" ++ lit ":false,"
  ++ q "createdAt" ++ lit ":" ++ q "2023-11-14T22:13:20.000Z" ++ lit "}".

Definition json_walk_dog : jsstring :=
  lit "{" ++ q "id" ++ lit ":1700000000001," ++ q "text" ++ lit ":"
  ++ q "Walk dog" ++ lit "," ++ q "createdAt" ++ lit ":"
  ++ q "2023-11-14T22:13:20.000Z" ++ lit "}".

Definition json_text_only : jsstring :=
  lit "{" ++ q "text" ++ lit ":" ++ q "a" ++ lit "}".

(** [[{Buy milk}]] *)
Definition doc_one : jsstring := lit "[" ++ json_buy_milk ++ lit "]".
(** [[{Buy milk},{Walk dog, incomplete}]] *)
Definition doc_incomplete : jsstring :=
  lit "[" ++ json_buy_milk ++ lit "," ++ json_walk_dog ++ lit "]".
(** [[null,{"text":"a"}]] *)
Definition doc_null_first : jsstring :=
  lit "[null," ++ json_text_only ++ lit "]".
(** [[5,{"text":"a"},{Walk dog}]] *)
Definition doc_mixed : jsstring :=
  lit "[5," ++ json_text_only ++ lit "," ++ json_walk_dog ++ lit "]".

Definition documents : list (jsstring * value) :=
  [ (doc_one, VArr [buy_milk]);
    (doc_incomplete, VArr [buy_milk; walk_dog]);
    (doc_null_first, VArr [VNull; text_only]);
    (doc_mixed, VArr [VNum 5; text_only; walk_dog]);
    (json_text_only, text_only) ].

Definition parse (s : jsstring) : outcome value :=
  match List.find (fun d => bool_decide (d.1 = s)) documents with
  | Some d => Ok d.2
  | None => Throw SyntaxError
  end.

Definition platform : Platform :=
  {| JSON_parse := parse;
     Date_valid := fun s => bool_decide (s = created) |}.

Definition task (id : Z) (text : string) (done : bool) : TodoItem.t :=
  {| TodoItem.id := VNum id; TodoItem.text := VStr (lit text);
     TodoItem.completed := VBool done; TodoItem.createdAt := VStr created |}.

Definition app (l : list TodoItem.t) (input : string) : TodoList.t :=
  {| TodoList.todos := l; TodoList.todoInput := Some (lit input);
     TodoList.trace := [] |}.

(** One task in the collection, an empty input field. *)
Definition app_one : TodoList.t := app [task 1 "Buy milk" false] "".

(** One task in the collection, 101 letters [a] in the input field. *)
Definition app_too_long : TodoList.t :=
  {| TodoList.todos := [task 1 "Buy milk" false];
     TodoList.todoInput := Some (repeat_unit 97 101);
     TodoList.trace := [] |}.

(** Start empty, type and add ["First todo"], type and add
    ["Second todo"]; [c1] and [c2] are the clock readings of the two
    constructor calls. *)
Definition add_twice (c1 c2 : Clock) : TodoList.t :=
  let app1 := TodoList.addTodo c1 (app [] "First todo") in
  TodoList.addTodo c2 (TodoList.type_text (lit "Second todo") app1).

End Demo.

(** ** Vocabulary of the properties *)

(** [null] or [undefined]. *)
Definition nullish (v : value) : bool :=
  match v with VUndefined | VNull => true | _ => false end.

(** A record that carries a [text] field. *)
Definition text_bearing (data : value) : bool :=
  match data with
  | VObj props =>
    match lookup_prop "text" props with
    | Some v => TodoStorage.is_defined v
    | None => false
    end
  | _ => false
  end.

(** [validateTodoObject] returns a valid result for the record. *)
Definition accepts `{Platform} (data : value) : bool :=
  match TodoValidator.validateTodoObject data with
  | Ok validation => isValid validation
  | Throw _ => false
  end.

(** The string parses as JSON, to an array, all of whose elements are
    accepted by [validateTodoObject]. *)
Definition importable `{Platform} (jsonString : jsstring) : bool :=
  match JSON_parse jsonString with
  | Ok (VArr elems) => forallb accepts elems
  | _ => false
  end.

(** The task has exactly the four fields of the record. *)
Definition same_fields (todo : TodoItem.t) (data : value) : Prop :=
  prop data "id" = Ok (TodoItem.id todo)
  /\ prop data "text" = Ok (TodoItem.text todo)
  /\ prop data "completed" = Ok (TodoItem.completed todo)
  /\ prop data "createdAt" = Ok (TodoItem.createdAt todo).

(** No task of the collection has the given id. *)
Definition absent (id : Z) (app : TodoList.t) : Prop :=
  Forall (fun todo => TodoList.id_is id todo = false) (TodoList.todos app).

(** One call of a controller entry point. *)
Inductive operation :=
| AddTodo (c : Clock)
| ToggleTodo (id : Z)
| DeleteTodo (id : Z)
| UpdateTodo (id : Z) (newText : jsstring)
| ClearAllTodos
| ClearCompletedTodos
| ImportTodos (clock : nat -> Clock) (jsonString : jsstring)
| TypeText (text : jsstring).

Definition run `{Platform} (op : operation) (app : TodoList.t) : TodoList.t :=
  match op with
  | AddTodo c => TodoList.addTodo c app
  | ToggleTodo id => TodoList.toggleTodo id app
  | DeleteTodo id => TodoList.deleteTodo id app
  | UpdateTodo id newText => (TodoList.updateTodo id newText app).2
  | ClearAllTodos => TodoList.clearAllTodos app
  | ClearCompletedTodos => TodoList.clearCompletedTodos app
  | ImportTodos clock jsonString => (TodoList.importTodos clock jsonString app).2
  | TypeText text => TodoList.type_text text app
  end.

(** The data given to the last call of [localStorage.setItem] recorded in
    a trace (the call is attempted; whether the browser stored the data is
    not part of the trace). *)
Fixpoint last_saved (tr : list effect) : option value :=
  match tr with
  | [] => None
  | e :: tr' =>
    match last_saved tr' with
    | Some data => Some data
    | None => match e with SetItem _ data => Some data | _ => None end
    end
  end.

(** The collection given to the last call of [renderer.renderTodos]
    recorded in a trace. *)
Fixpoint last_rendered (tr : list effect) : option (list TodoItem.t) :=
  match tr with
  | [] => None
  | e :: tr' =>
    match last_rendered tr' with
    | Some shown => Some shown
    | None => match e with RenderTodos shown => Some shown | _ => None end
    end
  end.

(** The last call of [setItem] was given the serialized collection in
    memory, and the last call of [renderTodos] was given that collection. *)
Definition last_calls_current (app : TodoList.t) : Prop :=
  last_saved (TodoList.trace app)
  = Some (VArr (map TodoItem.toJSON (TodoList.todos app)))
  /\ last_rendered (TodoList.trace app) = Some (TodoList.todos app).

(** The [completed] field holds a boolean. *)
Definition boolean_completed (todo : TodoItem.t) : Prop :=
  exists b, TodoItem.completed todo = VBool b.

(** The task is a well-formed record: a positive number for [id], a text
    of 1 to 100 code units after trimming, a boolean, a date string. *)
Definition well_formed `{Platform} (todo : TodoItem.t) : Prop :=
  (exists n, TodoItem.id todo = VNum n /\ 0 < n)
  /\ (exists s, TodoItem.text todo = VStr s
               /\ (1 <= length (trim s) <= 100)%nat)
  /\ boolean_completed todo
  /\ (exists d, TodoItem.createdAt todo = VStr d /\ Date_valid d = true).

(** The operation changed neither the collection nor the last calls of
    [setItem] and [renderTodos]. *)
Definition quiet (app app' : TodoList.t) : Prop :=
  TodoList.todos app' = TodoList.todos app
  /\ last_saved (TodoList.trace app') = last_saved (TodoList.trace app)
  /\ last_rendered (TodoList.trace app') = last_rendered (TodoList.trace app).

(** The [text] is a string of 1 to 100 code units after trimming. *)
Definition text_in_bounds (todo : TodoItem.t) : Prop :=
  exists s, TodoItem.text todo = VStr s /\ (1 <= length (trim s) <= 100)%nat.

(** * Properties *)

(** ** Trimming and text validation *)

Section Text.
Import TodoValidator.

Lemma trimStart_whitespace (s : jsstring) :
  forallb isWhiteSpace s = true -> trimStart s = [].
Proof.
  induction s as [|c s IH]; simpl; [done|].
  intros [Hc Hs]%andb_prop. rewrite Hc. auto.
Qed.

Lemma trim_whitespace (s : jsstring) :
  forallb isWhiteSpace s = true -> trim s = [].
Proof. intros Hs. unfold trim. by rewrite trimStart_whitespace. Qed.

Lemma validateText_isValid (text : jsstring) :
  isValid (validateText text) = true
  <-> (1 <= length (trim text) <= 100)%nat.
Proof.
  unfold validateText, MAX_LENGTH, MIN_LENGTH.
  destruct (trim text) as [|c s] eqn:Ht; simpl.
  - split; [discriminate | lia].
  - destruct (Nat.ltb_spec 100 (S (length s))); simpl.
    + split; [discriminate | lia].
    + split; [lia | done].
Qed.

Lemma validateText_invalid (text : jsstring) :
  isValid (validateText text) = false
  <-> trim text = [] \/ (100 < length (trim text))%nat.
Proof.
  pose proof (validateText_isValid text) as Hv.
  destruct (isValid (validateText text)).
  - split; [discriminate|]. intros [He|Hl].
    + rewrite He in Hv. simpl in Hv. lia.
    + lia.
  - split; [|done]. intros _.
    destruct (trim text) as [|c s]; [by left|right].
    simpl in *. destruct (decide (S (length s) <= 100)%nat); [|lia].
    assert (false = true) by (apply Hv; lia). discriminate.
Qed.

Lemma validateText_error (text : jsstring) :
  isValid (validateText text) = false -> is_Some (error (validateText text)).
Proof.
  unfold validateText. repeat case_match; simpl; eauto; discriminate.
Qed.

(** C3. [validateText] accepts a string exactly when its trimmed length
    lies between 1 and 100 inclusive; a trimmed length of exactly 100 is
    accepted; a string that trims to the empty string, and so every string
    made only of white space (spaces, tabs, newlines), is rejected with
    the message [Please enter a task!]. *)
Theorem validateText_length_bounds (text : jsstring) :
  (isValid (validateText text) = true
     <-> (1 <= length (trim text) <= 100)%nat)
  /\ (length (trim text) = 100%nat -> validateText text = valid)
  /\ (trim text = [] -> validateText text = invalid "Please enter a task!")
  /\ (forallb isWhiteSpace text = true ->
        validateText text = invalid "Please enter a task!").
Proof.
  split; [apply validateText_isValid|].
  assert (Hempty : trim text = [] ->
                   validateText text = invalid "Please enter a task!").
  { intros He. unfold validateText. by rewrite He. }
  split; [|split; [done|]].
  - intros Hl. unfold validateText, MAX_LENGTH, MIN_LENGTH.
    destruct (trim text) as [|c s]; [discriminate|].
    simpl in *. injection Hl as ->. reflexivity.
  - intros Hw. by apply Hempty, trim_whitespace.
Qed.

Example validateText_100 :
  validateText (repeat_unit 97 100) = valid.
Proof. reflexivity. Qed.

Example validateText_101 :
  validateText (repeat_unit 97 101)
  = invalid "Task is too long! Maximum 100 characters.".
Proof. reflexivity. Qed.

Example validateText_tabs_newlines :
  validateText [9; 10; 32; 13]%N = invalid "Please enter a task!".
Proof. reflexivity. Qed.

Example trim_buy_milk : trim (lit "  Buy milk  ") = lit "Buy milk".
Proof. reflexivity. Qed.

End Text.

(** ** The task entity *)

Section Entity.
Import TodoItem.

Lemma prop_toJSON (todo : TodoItem.t) :
  prop (toJSON todo) "id" = Ok (id todo)
  /\ prop (toJSON todo) "text" = Ok (text todo)
  /\ prop (toJSON todo) "completed" = Ok (completed todo)
  /\ prop (toJSON todo) "createdAt" = Ok (createdAt todo).
Proof. by destruct todo. Qed.

(** What [fromJSON] builds from a serialized task: every field is taken
    from the record, except that a falsy [id] is replaced by the clock. *)
Lemma fromJSON_toJSON (c : Clock) (todo : TodoItem.t) :
  fromJSON c (toJSON todo)
  = Ok {| id := if truthy (id todo) then id todo else VNum (Date_now c);
          text := text todo;
          completed := completed todo;
          createdAt := createdAt todo |}.
Proof. by destruct todo. Qed.




(** Every task the constructor builds has a truthy [id], unless the clock
    reads 0 at that moment. *)
Lemma new_id_truthy (c : Clock) (text0 id0 : value) :
  Date_now c <> 0 -> truthy (id (new c text0 id0)) = true.
Proof.
  intros Hc. unfold new; simpl. destruct (truthy id0) eqn:E; [done|].
  simpl. by apply negb_true_iff, Z.eqb_neq.
Qed.

Lemma toggle_flips (todo : TodoItem.t) :
  truthy (completed (toggle todo)) = negb (truthy (completed todo))
  /\ id (toggle todo) = id todo
  /\ text (toggle todo) = text todo
  /\ createdAt (toggle todo) = createdAt todo.
Proof. by destruct todo. Qed.

End Entity.

(** ** The controller *)

Section Controller.
Import TodoValidator TodoList.

Implicit Types (app : TodoList.t) (id : Z) (c : Clock).

Lemma findTodo_absent id app : absent id app -> findTodo id app = None.
Proof.
  intros Ha. apply list_find_None.
  eapply Forall_impl; [exact Ha|]. simpl. intros todo -> ; discriminate.
Qed.

Lemma findTodo_first id app l1 todo l2 :
  todos app = l1 ++ todo :: l2 ->
  Forall (fun todo' => id_is id todo' = false) l1 ->
  id_is id todo = true ->
  findTodo id app = Some (length l1, todo).
Proof.
  intros Ht Hl1 Hm. unfold findTodo. rewrite Ht.
  rewrite list_find_app_r.
  - simpl. rewrite decide_True by done. simpl. f_equal.
  - apply list_find_None. eapply Forall_impl; [exact Hl1|].
    simpl. intros ? ->; discriminate.
Qed.

Lemma addTodo_accepts c app raw :
  todoInput app = Some raw ->
  isValid (validateText raw) = true ->
  todos (addTodo c app) = todos app ++ [TodoItem.new c (VStr raw) VNull].
Proof. intros Hi Hv. unfold addTodo. by rewrite Hi, Hv. Qed.

(** C4. When the text in the input field fails validation (it trims to
    the empty string or to more than 100 code units), [addTodo] leaves the
    collection as it was, and the only effect is one error notification
    carrying the validation message: nothing is written to storage. *)
Theorem addTodo_invalid_unchanged c app raw :
  todoInput app = Some raw ->
  trim raw = [] \/ (100 < length (trim raw))%nat ->
  exists msg,
    addTodo c app = showError (Plain (Some msg)) app
    /\ todos (addTodo c app) = todos app
    /\ length (todos (addTodo c app)) = length (todos app)
    /\ trace (addTodo c app)
       = trace app ++ [Notify error_kind (Plain (Some msg))].
Proof.
  intros Hi Hbad%validateText_invalid.
  destruct (validateText_error raw Hbad) as [msg Hmsg].
  exists msg. unfold addTodo. rewrite Hi, Hbad, Hmsg. by simpl.
Qed.

Lemma addTodo_invalid_unchanged_witness :
  exists msg,
    addTodo Demo.clock Demo.app_too_long
    = showError (Plain (Some msg)) Demo.app_too_long
    /\ todos (addTodo Demo.clock Demo.app_too_long)
       = todos Demo.app_too_long
    /\ length (todos (addTodo Demo.clock Demo.app_too_long))
       = length (todos Demo.app_too_long)
    /\ trace (addTodo Demo.clock Demo.app_too_long)
       = trace Demo.app_too_long ++ [Notify error_kind (Plain (Some msg))].
Proof.
  apply (addTodo_invalid_unchanged Demo.clock Demo.app_too_long
           (repeat_unit 97 101)).
  - reflexivity.
  - right. vm_compute. lia.
Defined.

(** C2, evaluated on the code. With the text ["  Buy milk  "] in the input
    field, the task [addTodo] appends holds the text with its surrounding
    spaces, which is not the trimmed text ["Buy milk"]. *)
Theorem addTodo_stores_untrimmed_text c :
  map TodoItem.text (todos (addTodo c (Demo.app [] "  Buy milk  ")))
  = [VStr (lit "  Buy milk  ")]
  /\ trim (lit "  Buy milk  ") = lit "Buy milk"
  /\ VStr (lit "  Buy milk  ") <> VStr (trim (lit "  Buy milk  ")).
Proof. split; [reflexivity | split; [reflexivity | discriminate]]. Qed.

(** In general the accepted text is stored as typed. *)
Lemma addTodo_text_as_typed c app raw :
  todoInput app = Some raw ->
  isValid (validateText raw) = true ->
  TodoItem.text <$> last (todos (addTodo c app)) = Some (VStr raw).
Proof.
  intros Hi Hv. rewrite (addTodo_accepts c app raw Hi Hv).
  by rewrite last_snoc.
Qed.

Lemma addTodo_id_is_clock c app raw :
  todoInput app = Some raw ->
  isValid (validateText raw) = true ->
  TodoItem.id <$> last (todos (addTodo c app)) = Some (VNum (Date_now c)).
Proof.
  intros Hi Hv. rewrite (addTodo_accepts c app raw Hi Hv).
  by rewrite last_snoc.
Qed.

(** C5, evaluated on the code. Two tasks added while [Date.now()] reads
    the same millisecond receive the same [id]. *)
Theorem addTodo_same_millisecond_same_id :
  map TodoItem.id (todos (Demo.add_twice Demo.clock Demo.clock))
  = [VNum 1700000000000; VNum 1700000000000]
  /\ map TodoItem.text (todos (Demo.add_twice Demo.clock Demo.clock))
     = [VStr (lit "First todo"); VStr (lit "Second todo")].
Proof. split; reflexivity. Qed.

(** When the clock advances between the two calls the ids differ: each is
    the reading of its own constructor call. *)
Lemma add_twice_ids (c1 c2 : Clock) :
  map TodoItem.id (todos (Demo.add_twice c1 c2))
  = [VNum (Date_now c1); VNum (Date_now c2)].
Proof. reflexivity. Qed.

(** C7. For an id that no task of the collection has, [toggleTodo] and
    [deleteTodo] return the application as it was: same collection, no
    storage write, no notification, no exception. When the id is present,
    [toggleTodo] negates the [completed] flag of the first task with that
    id and [deleteTodo] removes that first task; all other tasks stay. *)
Theorem toggle_delete_by_id id app :
  (absent id app -> toggleTodo id app = app /\ deleteTodo id app = app)
  /\ (forall l1 todo l2,
        todos app = l1 ++ todo :: l2 ->
        Forall (fun todo' => id_is id todo' = false) l1 ->
        id_is id todo = true ->
        todos (toggleTodo id app) = l1 ++ TodoItem.toggle todo :: l2
        /\ truthy (TodoItem.completed (TodoItem.toggle todo))
           = negb (truthy (TodoItem.completed todo))
        /\ todos (deleteTodo id app) = l1 ++ l2).
Proof.
  split.
  - intros Ha. unfold toggleTodo, deleteTodo, findTodoIndexById.
    by rewrite (findTodo_absent id app Ha).
  - intros l1 todo l2 Ht Hl1 Hm.
    pose proof (findTodo_first id app l1 todo l2 Ht Hl1 Hm) as Hf.
    unfold toggleTodo, deleteTodo, findTodoIndexById. rewrite Hf. simpl.
    rewrite Ht. split; [|split].
    + replace (length l1) with (length l1 + 0)%nat by lia.
      by rewrite insert_app_r.
    + by destruct todo.
    + apply delete_middle.
Qed.

Example toggle_delete_first_match :
  let app := Demo.app [Demo.task 1 "a" false; Demo.task 2 "b" false;
                       Demo.task 2 "c" false] "" in
  todos (toggleTodo 2 app)
  = [Demo.task 1 "a" false; Demo.task 2 "b" true; Demo.task 2 "c" false]
  /\ todos (deleteTodo 2 app)
     = [Demo.task 1 "a" false; Demo.task 2 "c" false]
  /\ toggleTodo 3 app = app /\ deleteTodo 3 app = app.
Proof. repeat split. Qed.

(** C10. For a text that passes validation and an id that no task has,
    [updateTodo] returns [false] and the application as it was: same
    collection, no storage write, no notification. A text that fails
    validation also gives [false], but the application then carries an
    error notification, so the two failures can be told apart. *)
Theorem updateTodo_absent_id_silent id newText app :
  isValid (validateText newText) = true ->
  absent id app ->
  updateTodo id newText app = (false, app)
  /\ forall badText,
       isValid (validateText badText) = false ->
       exists msg,
         updateTodo id badText app
         = (false, showError (Plain (Some msg)) app)
         /\ (updateTodo id badText app).2 <> app.
Proof.
  intros Hv Ha. split.
  - unfold updateTodo. rewrite Hv. simpl.
    by rewrite (findTodo_absent id app Ha).
  - intros badText Hbad.
    destruct (validateText_error badText Hbad) as [msg Hmsg].
    exists msg. unfold updateTodo. rewrite Hbad, Hmsg. simpl.
    split; [done|]. intros Heq.
    apply (f_equal (fun a => length (trace a))) in Heq. simpl in Heq.
    rewrite length_app in Heq. simpl in Heq. lia.
Qed.

Lemma updateTodo_absent_id_silent_witness :
  updateTodo 2 (lit "Buy bread") Demo.app_one = (false, Demo.app_one)
  /\ forall badText,
       isValid (validateText badText) = false ->
       exists msg,
         updateTodo 2 badText Demo.app_one
         = (false, showError (Plain (Some msg)) Demo.app_one)
         /\ (updateTodo 2 badText Demo.app_one).2 <> Demo.app_one.
Proof.
  apply (updateTodo_absent_id_silent 2 (lit "Buy bread") Demo.app_one).
  - reflexivity.
  - repeat constructor.
Defined.

Example updateTodo_present :
  updateTodo 1 (lit "  Buy bread ") (Demo.app [Demo.task 1 "Buy milk" false] "")
  = (true,
     render (saveTodos (Demo.app [Demo.task 1 "Buy bread" false] ""))).
Proof. reflexivity. Qed.

Lemma filter_partition_length {A} (f : A -> bool) (l : list A) :
  (length (List.filter f l)
   + length (List.filter (fun x => negb (f x)) l) = length l)%nat.
Proof.
  induction l as [|x l IH]; simpl; [done|].
  destruct (f x); simpl; lia.
Qed.

(** C8. For every collection the statistics satisfy
    [completed + incomplete = total]; the completion rate is
    [completed / total * 100], computed in binary64 as the source does,
    when [total > 0], and 0 when [total = 0]. *)
Theorem getStats_consistent app :
  (completed (getStats app) + incomplete (getStats app)
   = total (getStats app))%nat
  /\ total (getStats app) = length (todos app)
  /\ ((0 < total (getStats app))%nat ->
      completionRate (getStats app)
      = PrimFloat.mul
          (PrimFloat.div (number_of_nat (completed (getStats app)))
                         (number_of_nat (total (getStats app))))
          100%float)
  /\ (total (getStats app) = 0%nat ->
      completionRate (getStats app) = 0%float).
Proof.
  unfold getStats; simpl. split; [|split; [done|split]].
  - apply filter_partition_length.
  - intros Hpos. apply Nat.ltb_lt in Hpos. by rewrite Hpos.
  - intros ->. reflexivity.
Qed.

Example getStats_two_tasks :
  getStats (Demo.app [Demo.task 1 "a" true; Demo.task 2 "b" false] "")
  = {| total := 2; completed := 1; incomplete := 1;
       completionRate := 50%float |}.
Proof. reflexivity. Qed.

(** One task of three completed: the rate is the double JavaScript prints
    as 33.33333333333333; eleven of twenty: 55.00000000000001. *)
Example getStats_rounding :
  completionRate
    (getStats (Demo.app [Demo.task 1 "a" true; Demo.task 2 "b" false;
                         Demo.task 3 "c" false] ""))
  = 0x1.0aaaaaaaaaaaap+5%float
  /\ PrimFloat.mul (PrimFloat.div (number_of_nat 11) (number_of_nat 20))
       100%float
     = 0x1.b800000000001p+5%float.
Proof. split; reflexivity. Qed.

End Controller.

(** ** The storage adapter *)

Section Storage.
Context `{Platform}.
Import TodoStorage.

Lemma keep_text_bearing_defined (data : value) :
  nullish data = false ->
  keep_text_bearing data
  = Ok (if text_bearing data then data else VNull).
Proof.
  unfold keep_text_bearing. destruct data; simpl; try done.
  intros _. destruct (lookup_prop "text" props) as [v|]; simpl; [|done].
  by destruct (is_defined v).
Qed.

Lemma text_bearing_truthy (data : value) :
  truthy (if text_bearing data then data else VNull) = text_bearing data.
Proof.
  destruct (text_bearing data) eqn:E; [|done]. by destruct data.
Qed.

Lemma array_map_keep (i : nat) (elems : list value) :
  Forall (fun data => nullish data = false) elems ->
  exists mapped,
    array_map (fun _ => keep_text_bearing) i elems = Ok mapped
    /\ List.filter truthy mapped = List.filter text_bearing elems.
Proof.
  intros Hall. revert i.
  induction Hall as [|data elems Hd _ IH]; intros i; simpl.
  - by exists [].
  - destruct (IH (S i)) as (mapped & Hm & Hf).
    rewrite (keep_text_bearing_defined data Hd). simpl. rewrite Hm. simpl.
    eexists; split; [done|]. simpl.
    rewrite text_bearing_truthy, Hf. by destruct (text_bearing data).
Qed.

Lemma array_map_nullish (i : nat) (elems : list value) :
  Exists (fun data => nullish data = true) elems ->
  exists e, array_map (fun _ => keep_text_bearing) i elems = Throw e.
Proof.
  intros Hex. revert i.
  induction Hex as [data elems Hd | data elems _ IH]; intros i; simpl.
  - destruct data; try discriminate; simpl; eauto.
  - destruct (keep_text_bearing data) as [kept|e]; simpl; [|eauto].
    destruct (IH (S i)) as [e He]. rewrite He. simpl. eauto.
Qed.

(** X23. [loadTodos] returns the empty collection when the key
    is absent, when reading raises, when the stored string does not parse,
    when it parses to something that is not an array, and when the parsed
    array has a [null] element; it never raises. When the stored string is
    not empty and parses to an array without [null] elements, the result
    is the array restricted to the records that carry a [text] field, in
    order and unchanged (no other field is looked at). *)
Theorem loadTodos_text_bearing_only :
  loadTodos (Ok None) = []
  /\ loadTodos (Ok (Some [])) = []
  /\ (forall e, loadTodos (Throw e) = [])
  /\ (forall stored e,
        JSON_parse stored = Throw e -> loadTodos (Ok (Some stored)) = [])
  /\ (forall stored v,
        JSON_parse stored = Ok v -> (forall elems, v <> VArr elems) ->
        loadTodos (Ok (Some stored)) = [])
  /\ (forall stored elems,
        JSON_parse stored = Ok (VArr elems) ->
        Exists (fun data => nullish data = true) elems ->
        loadTodos (Ok (Some stored)) = [])
  /\ (forall stored elems,
        stored <> [] ->
        JSON_parse stored = Ok (VArr elems) ->
        Forall (fun data => nullish data = false) elems ->
        loadTodos (Ok (Some stored)) = List.filter text_bearing elems).
Proof.
  unfold loadTodos. repeat split; simpl.
  - intros stored e Hp. destruct stored; [done|]. simpl. by rewrite Hp.
  - intros stored v Hp Hv. destruct stored; [done|]. simpl. rewrite Hp.
    simpl. destruct v; try done. by destruct (Hv elems).
  - intros stored elems Hp Hex. destruct stored; [done|]. simpl.
    rewrite Hp. simpl.
    destruct (array_map_nullish 0 elems Hex) as [e He]. by rewrite He.
  - intros stored elems Hne Hp Hall. destruct stored; [done|]. simpl.
    rewrite Hp. simpl.
    destruct (array_map_keep 0 elems Hall) as (mapped & Hm & Hf).
    by rewrite Hm.
Qed.

End Storage.

Section StorageExamples.
Import TodoStorage.

Example loadTodos_mixed :
  @loadTodos Demo.platform (Ok (Some Demo.doc_mixed))
  = [Demo.text_only; Demo.walk_dog].
Proof. reflexivity. Qed.

Example loadTodos_not_json :
  @loadTodos Demo.platform (Ok (Some (lit "not json"))) = []
  /\ @loadTodos Demo.platform (Ok (Some Demo.json_text_only)) = []
  /\ @loadTodos Demo.platform (Throw DOMException) = [].
Proof. repeat split. Qed.

(** C9, evaluated on the code. The stored string [[null,{"text":"a"}]]
    parses to an array with one text-bearing record, and [loadTodos]
    returns the empty collection instead of that record: the callback reads
    [text] of [null] without a check, which raises, and the exception
    handler answers for the whole array. Every other element that is not a
    text-bearing record is dropped alone (see [loadTodos_mixed]). *)
Lemma loadTodos_null_element :
  @JSON_parse Demo.platform Demo.doc_null_first
  = Ok (VArr [VNull; Demo.text_only])
  /\ List.filter text_bearing [VNull; Demo.text_only] = [Demo.text_only]
  /\ @loadTodos Demo.platform (Ok (Some Demo.doc_null_first)) = []
  /\ @loadTodos Demo.platform (Ok (Some Demo.doc_null_first))
     <> List.filter text_bearing [VNull; Demo.text_only].
Proof. repeat split. discriminate. Qed.

End StorageExamples.

(** ** Import *)

Section ImportJson.
Context `{Platform}.
Import TodoValidator TodoList.

(** The validation loop succeeds exactly on arrays of accepted records. *)
Lemma validate_each_accepts (elems : list value) :
  match validate_each elems with
  | Ok _ => forallb accepts elems = true
  | Throw _ => forallb accepts elems = false
  end.
Proof.
  induction elems as [|data elems IH]; simpl; [done|].
  unfold accepts at 1 3.
  destruct (validateTodoObject data) as [validation|e]; simpl; [|done].
  destruct (isValid validation); simpl; [exact IH | done].
Qed.

Lemma validateId_truthy (v : value) :
  isValid (validateId v) = true -> truthy v = true.
Proof.
  unfold validateId. destruct (truthy v); [done|]. simpl. discriminate.
Qed.

(** An accepted record is an object, and [fromJSON] copies its four
    fields without consulting the clock. *)
Lemma accepts_fromJSON (c : Clock) (data : value) :
  accepts data = true ->
  exists todo, TodoItem.fromJSON c data = Ok todo /\ same_fields todo data.
Proof.
  unfold accepts, validateTodoObject.
  destruct data as [| | | | |elems|props]; simpl; rewrite ?orb_true_r;
    try discriminate.
  destruct (lookup_prop "id" props) as [idv|] eqn:Hid; simpl;
    [|discriminate].
  destruct (lookup_prop "text" props) as [textv|] eqn:Htext; simpl;
    [|discriminate].
  destruct (lookup_prop "completed" props) as [completedv|] eqn:Hco; simpl;
    [|discriminate].
  destruct (lookup_prop "createdAt" props) as [createdv|] eqn:Hcr; simpl;
    [|discriminate].
  destruct (validateText_any textv) as [tv|e] eqn:Htv; simpl;
    [|discriminate].
  destruct (isValid tv) eqn:Hvt; simpl; [|rewrite Hvt; discriminate].
  destruct (isValid (validateId idv)) eqn:Hidv; simpl;
    [|rewrite Hidv; discriminate].
  intros _. apply validateId_truthy in Hidv.
  unfold TodoItem.fromJSON, TodoItem.new, same_fields. simpl.
  rewrite Hid, Htext, Hco, Hcr. simpl. rewrite Hidv.
  eexists; split; [reflexivity|]. simpl. done.
Qed.

Lemma array_map_fromJSON (clock : nat -> Clock) (i : nat) (elems : list value) :
  forallb accepts elems = true ->
  exists imported,
    array_map (fun i data => TodoItem.fromJSON (clock i) data) i elems
    = Ok imported
    /\ Forall2 same_fields imported elems.
Proof.
  revert i. induction elems as [|data elems IH]; intros i; simpl.
  - intros _. exists []. split; [done | constructor].
  - intros [Hd Hs]%andb_prop.
    destruct (accepts_fromJSON (clock i) data Hd) as (todo & Hf & Hsame).
    destruct (IH (S i) Hs) as (imported & Hm & Hall).
    rewrite Hf. simpl. rewrite Hm. simpl.
    exists (todo :: imported). split; [done | by constructor].
Qed.

(** C1. [importTodos] is all-or-nothing. When the string does not parse
    as JSON, parses to something that is not an array, or has an element
    that [validateTodoObject] does not accept, the call returns [false],
    the collection is the one before the call, and the only effect is one
    error notification (no storage write). Otherwise the call returns
    [true] and the collection is replaced by one task per record of the
    array, in order, each with the four fields of its record; the new
    collection is written to storage and rendered. *)
Theorem importTodos_all_or_nothing
    (clock : nat -> Clock) (jsonString : jsstring) (app : TodoList.t) :
  (importable jsonString = false ->
     exists e,
       importTodos clock jsonString app
       = (false, showError (ImportFailed e) app)
       /\ todos (importTodos clock jsonString app).2 = todos app
       /\ trace (importTodos clock jsonString app).2
          = trace app ++ [Notify error_kind (ImportFailed e)])
  /\ (importable jsonString = true ->
     exists elems imported,
       JSON_parse jsonString = Ok (VArr elems)
       /\ Forall2 same_fields imported elems
       /\ todos (importTodos clock jsonString app).2 = imported
       /\ importTodos clock jsonString app
          = (true,
             showSuccess (Plain (Some "Todos imported successfully!"%string))
               (render (saveTodos (set_todos imported app))))).
Proof.
  unfold importable, importTodos.
  destruct (JSON_parse jsonString) as [todoData|e]; simpl.
  2: { split; [eauto | discriminate]. }
  destruct todoData as [| | | | |elems|props]; simpl;
    try (split; [eauto | discriminate]).
  pose proof (validate_each_accepts elems) as Hv.
  destruct (validate_each elems) as [[]|e]; simpl; rewrite Hv.
  - split; [discriminate|]. intros _.
    destruct (array_map_fromJSON clock 0 elems Hv) as (imported & Hm & Hall).
    rewrite Hm. simpl. by exists elems, imported.
  - split; [eauto | discriminate].
Qed.

End ImportJson.

Section ImportExamples.
Import TodoValidator TodoList.

Example importTodos_one :
  @importTodos Demo.platform (fun _ => Demo.clock) Demo.doc_one Demo.app_one
  = (true,
     showSuccess (Plain (Some "Todos imported successfully!"%string))
       (render (saveTodos
          (set_todos [Demo.task 1700000000000 "Buy milk" false]
                     Demo.app_one)))).
Proof. reflexivity. Qed.

Example importTodos_incomplete_record :
  @importTodos Demo.platform (fun _ => Demo.clock) Demo.doc_incomplete
    Demo.app_one
  = (false,
     showError
       (ImportFailed
          (Error "Invalid todo: Missing required field: completed"))
       Demo.app_one).
Proof. reflexivity. Qed.

Example importTodos_not_json :
  @importTodos Demo.platform (fun _ => Demo.clock) (lit "not json")
    Demo.app_one
  = (false, showError (ImportFailed SyntaxError) Demo.app_one)
  /\ @importTodos Demo.platform (fun _ => Demo.clock) Demo.json_text_only
       Demo.app_one
     = (false,
        showError (ImportFailed (Error "Invalid format: expected array"))
          Demo.app_one).
Proof. split; reflexivity. Qed.

End ImportExamples.

(** * Further properties of the code *)

(** ** Facts about [trim] *)

Section TrimFacts.

Lemma trimStart_app_whitespace (w s : jsstring) :
  forallb isWhiteSpace w = true -> trimStart (w ++ s) = trimStart s.
Proof.
  induction w as [|c w IH]; simpl; [done|].
  intros [Hc Hw]%andb_prop. rewrite Hc. auto.
Qed.

Lemma trimStart_split (s : jsstring) :
  exists w, s = w ++ trimStart s /\ forallb isWhiteSpace w = true.
Proof.
  induction s as [|c s (w & Hs & Hw)]; simpl; [by exists []|].
  destruct (isWhiteSpace c) eqn:Hc.
  - exists (c :: w). simpl. rewrite Hc, Hw. split; [by f_equal | done].
  - by exists [].
Qed.

Lemma trimStart_head (s : jsstring) :
  trimStart s = []
  \/ exists c r, trimStart s = c :: r /\ isWhiteSpace c = false.
Proof.
  induction s as [|c s IH]; simpl; [by left|].
  destruct (isWhiteSpace c) eqn:Hc; [done|]. right. by exists c, s.
Qed.

Lemma trimStart_nil (s : jsstring) :
  trimStart s = [] <-> forallb isWhiteSpace s = true.
Proof.
  split; [|apply trimStart_whitespace].
  intros He. destruct (trimStart_split s) as (w & Hs & Hw).
  rewrite He, app_nil_r in Hs. by subst.
Qed.

Lemma forallb_rev (w : jsstring) :
  forallb isWhiteSpace (rev w) = forallb isWhiteSpace w.
Proof.
  induction w as [|c w IH]; simpl; [done|].
  rewrite forallb_app, IH. simpl. rewrite andb_true_r. apply andb_comm.
Qed.

Lemma trimEnd_app_whitespace (s w : jsstring) :
  forallb isWhiteSpace w = true -> trimEnd (s ++ w) = trimEnd s.
Proof.
  intros Hw. unfold trimEnd. rewrite rev_app_distr.
  rewrite trimStart_app_whitespace; [done|]. by rewrite forallb_rev.
Qed.

Lemma trimEnd_split (s : jsstring) :
  exists w, s = trimEnd s ++ w /\ forallb isWhiteSpace w = true.
Proof.
  destruct (trimStart_split (rev s)) as (w & Hs & Hw).
  exists (rev w). unfold trimEnd. split; [|by rewrite forallb_rev].
  rewrite <- rev_app_distr, <- Hs. by rewrite rev_involutive.
Qed.

Lemma trimEnd_nil (s : jsstring) :
  trimEnd s = [] <-> forallb isWhiteSpace s = true.
Proof.
  unfold trimEnd. split.
  - intros He. apply (f_equal (@rev N)) in He.
    rewrite rev_involutive in He. simpl in He.
    apply trimStart_nil in He. by rewrite forallb_rev in He.
  - intros Hw. rewrite trimStart_whitespace; [done|]. by rewrite forallb_rev.
Qed.

Lemma trim_nil (s : jsstring) :
  trim s = [] <-> forallb isWhiteSpace s = true.
Proof.
  split; [|apply trim_whitespace].
  unfold trim. intros He%trimEnd_nil.
  destruct (trimStart_head s) as [Hn|(c & r & Hs & Hc)].
  - by apply trimStart_nil.
  - rewrite Hs in He. simpl in He. by rewrite Hc in He.
Qed.

(** White space around a string does not change what [trim] returns. *)
Lemma trim_surround (w1 s w2 : jsstring) :
  forallb isWhiteSpace w1 = true -> forallb isWhiteSpace w2 = true ->
  trim (w1 ++ s ++ w2) = trim s.
Proof.
  intros H1 H2. unfold trim. rewrite trimStart_app_whitespace by done.
  destruct (trimStart_split s) as (w & Hs & Hw).
  rewrite Hs at 1. rewrite <- app_assoc.
  rewrite trimStart_app_whitespace by done.
  destruct (trimStart_head s) as [Hn|(c & r & Hc & Hnw)].
  - rewrite Hn. simpl. by rewrite trimStart_whitespace.
  - rewrite Hc.
    assert (Hk : forall t, trimStart (c :: t) = c :: t)
      by (intros t; simpl; by rewrite Hnw).
    change ((c :: r) ++ w2) with (c :: (r ++ w2)). rewrite Hk.
    change (c :: (r ++ w2)) with ((c :: r) ++ w2).
    by apply trimEnd_app_whitespace.
Qed.

Lemma trim_idempotent (s : jsstring) : trim (trim s) = trim s.
Proof.
  destruct (trimStart_split s) as (w1 & Hs & Hw1).
  destruct (trimEnd_split (trimStart s)) as (w2 & Ht & Hw2).
  fold (trim s) in Ht.
  assert (Hs' : s = w1 ++ trim s ++ w2) by (rewrite <- Ht; exact Hs).
  transitivity (trim (w1 ++ trim s ++ w2)).
  - symmetry. by apply trim_surround.
  - by rewrite <- Hs'.
Qed.

Lemma length_trimStart (s : jsstring) : (length (trimStart s) <= length s)%nat.
Proof.
  destruct (trimStart_split s) as (w & Hs & _).
  rewrite Hs at 2. rewrite length_app. lia.
Qed.

Lemma length_trim (s : jsstring) : (length (trim s) <= length s)%nat.
Proof.
  unfold trim. destruct (trimEnd_split (trimStart s)) as (w & Hs & _).
  pose proof (length_trimStart s) as Hl. rewrite Hs in Hl at 1.
  rewrite length_app in Hl. lia.
Qed.

End TrimFacts.

(** ** The validator, beyond text length *)

Section Validator.
Import TodoValidator.

(** X1. White space before and after a text does not change the result of
    [validateText]: the verdict and the message depend on the trimmed text
    only. *)
Theorem validateText_ignores_surrounding_whitespace (w1 text w2 : jsstring) :
  forallb isWhiteSpace w1 = true ->
  forallb isWhiteSpace w2 = true ->
  validateText (w1 ++ text ++ w2) = validateText text.
Proof.
  intros H1 H2. unfold validateText. by rewrite trim_surround.
Qed.

Lemma validateText_ignores_surrounding_whitespace_witness :
  validateText (lit "  " ++ lit "Buy milk" ++ [9; 10]%N)
  = validateText (lit "Buy milk").
Proof.
  apply (validateText_ignores_surrounding_whitespace
           (lit "  ") (lit "Buy milk") [9; 10]%N); reflexivity.
Defined.

(** X2. [validateText] has three results only: valid without a message,
    or invalid with [Please enter a task!], or invalid with the too-long
    message. The branch for a text shorter than [MIN_LENGTH] is never taken:
    no input yields [Task must have at least one character.]. *)
Theorem validateText_three_results (text : jsstring) :
  (validateText text = valid
   \/ validateText text = invalid "Please enter a task!"
   \/ validateText text = invalid "Task is too long! Maximum 100 characters.")
  /\ error (validateText text)
     <> Some "Task must have at least one character."%string.
Proof.
  unfold validateText, MAX_LENGTH, MIN_LENGTH, valid, invalid.
  destruct (trim text) as [|c s]; simpl; [by auto|].
  destruct (Nat.ltb_spec 100 (S (length s))); simpl; by auto.
Qed.

Lemma validateId_cases (id : value) :
  (isValid (validateId id) = true <-> exists n, id = VNum n /\ 0 < n)
  /\ (isValid (validateId id) = false ->
      validateId id = invalid "Invalid todo ID").
Proof.
  unfold validateId. split.
  - destruct id as [| |b|n|s|elems|props]; simpl;
      rewrite ?orb_true_r; simpl;
      try (split; [discriminate | by intros (? & ? & ?)]).
    destruct (Z.eqb_spec n 0) as [->|Hn]; simpl.
    + split; [discriminate|]. intros (m & Hm & Hpos). injection Hm as <-. lia.
    + destruct (Z.leb_spec n 0); simpl.
      * split; [discriminate|]. intros (m & Hm & Hpos).
        injection Hm as <-. lia.
      * split; [|done]. intros _. exists n. split; [done | lia].
  - by destruct (negb (truthy id) || negb (jstype_eqb (typeof id) TNumber)
                 || le_zero id).
Qed.

(** X3. [validateId] accepts exactly the numbers greater than 0; every
    other value (0, a negative number, a string, a boolean, null, undefined,
    an array, an object) gets [Invalid todo ID]. *)
Theorem validateId_positive_numbers (id : value) :
  (isValid (validateId id) = true <-> exists n, id = VNum n /\ 0 < n)
  /\ (isValid (validateId id) = false ->
      validateId id = invalid "Invalid todo ID").
Proof. exact (validateId_cases id). Qed.

(** X4. [isWhitespaceOnly] holds exactly for the strings all of whose code
    units are white space (the empty string included), and these are exactly
    the strings [validateText] rejects with [Please enter a task!]. *)
Theorem isWhitespaceOnly_all_whitespace (text : jsstring) :
  (isWhitespaceOnly text = true <-> forallb isWhiteSpace text = true)
  /\ (isWhitespaceOnly text = true
      <-> validateText text = invalid "Please enter a task!").
Proof.
  assert (Hw : isWhitespaceOnly text = true <-> trim text = []).
  { unfold isWhitespaceOnly. rewrite Nat.eqb_eq. apply length_zero_iff_nil. }
  split.
  - rewrite Hw. apply trim_nil.
  - rewrite Hw. unfold validateText, MAX_LENGTH, MIN_LENGTH, invalid.
    destruct (trim text) as [|c s]; simpl; [done|].
    destruct (Nat.ltb_spec 100 (S (length s))); simpl;
      split; discriminate.
Qed.

(** X5. [sanitizeText] never raises and is idempotent; on a string it
    leaves the verdict of [validateText] unchanged, and a value that is not
    a string is sanitized to the empty string, which [validateText]
    rejects. *)
Theorem sanitizeText_idempotent (text : value) :
  sanitizeText (VStr (sanitizeText text)) = sanitizeText text
  /\ (forall s, text = VStr s ->
        validateText (sanitizeText text) = validateText s)
  /\ (typeof text <> TString ->
        sanitizeText text = []
        /\ validateText (sanitizeText text) = invalid "Please enter a task!").
Proof.
  split; [|split].
  - destruct text; simpl; try reflexivity. apply trim_idempotent.
  - intros s ->. unfold sanitizeText. simpl. unfold validateText.
    by rewrite trim_idempotent.
  - by destruct text.
Qed.

End Validator.

Section ValidatorObject.
Context `{Platform}.
Import TodoValidator.

Lemma lookup_prop_has (k : string) (props : list (string * value)) :
  has_prop k (VObj props) = true <-> is_Some (lookup_prop k props).
Proof. simpl. apply bool_decide_eq_true. Qed.

(** What [validateTodoObject] computes on an object with the four fields. *)
Lemma validateTodoObject_present (props : list (string * value))
    (idv textv completedv createdv : value) :
  lookup_prop "id" props = Some idv ->
  lookup_prop "text" props = Some textv ->
  lookup_prop "completed" props = Some completedv ->
  lookup_prop "createdAt" props = Some createdv ->
  validateTodoObject (VObj props)
  = (textValidation ← validateText_any textv;
     if negb (isValid textValidation) then Ok textValidation
     else if negb (isValid (validateId idv)) then Ok (validateId idv)
     else if negb (jstype_eqb (typeof completedv) TBoolean)
          then Ok (invalid "Completed field must be a boolean")
     else if negb (jstype_eqb (typeof createdv) TString)
             || negb (isValidDate createdv)
          then Ok (invalid "Invalid createdAt date")
     else Ok valid).
Proof.
  intros Hid Htext Hco Hcr. unfold validateTodoObject. simpl.
  by rewrite Hid, Htext, Hco, Hcr.
Qed.

(** With a field missing the result is a validation error, not an
    exception. *)
Lemma validateTodoObject_missing (props : list (string * value)) :
  lookup_prop "id" props = None \/ lookup_prop "text" props = None
  \/ lookup_prop "completed" props = None
  \/ lookup_prop "createdAt" props = None ->
  exists field,
    In field requiredFields
    /\ lookup_prop field props = None
    /\ validateTodoObject (VObj props)
       = Ok (invalid ("Missing required field: " ++ field)).
Proof.
  intros Hmiss. unfold validateTodoObject. simpl.
  destruct (lookup_prop "id" props) eqn:Hid; simpl;
    [|exists "id"%string; split_and!; [simpl; tauto | done | done]].
  destruct (lookup_prop "text" props) eqn:Htext; simpl;
    [|exists "text"%string; split_and!; [simpl; tauto | done | done]].
  destruct (lookup_prop "completed" props) eqn:Hco; simpl;
    [|exists "completed"%string; split_and!; [simpl; tauto | done | done]].
  destruct (lookup_prop "createdAt" props) eqn:Hcr; simpl;
    [|exists "createdAt"%string; split_and!; [simpl; tauto | done | done]].
  by destruct Hmiss as [?|[?|[?|?]]].
Qed.

Lemma validateTodoObject_not_object (data : value) :
  (forall props, data <> VObj props) ->
  exists msg, validateTodoObject data = Ok (invalid msg).
Proof.
  intros Hno. unfold validateTodoObject.
  destruct data; simpl; rewrite ?orb_true_r; eauto.
  by destruct (Hno props).
Qed.

Lemma accepts_characterized (data : value) :
  accepts data = true
  <-> exists props n s b d,
        data = VObj props
        /\ lookup_prop "id" props = Some (VNum n) /\ 0 < n
        /\ lookup_prop "text" props = Some (VStr s)
        /\ (1 <= length (trim s) <= 100)%nat
        /\ lookup_prop "completed" props = Some (VBool b)
        /\ lookup_prop "createdAt" props = Some (VStr d)
        /\ Date_valid d = true.
Proof.
  unfold accepts. split.
  - destruct data as [| | | | |elems|props];
      try (unfold validateTodoObject; simpl; rewrite ?orb_true_r;
           discriminate).
    destruct (lookup_prop "id" props) as [idv|] eqn:Hid;
    destruct (lookup_prop "text" props) as [textv|] eqn:Htext;
    destruct (lookup_prop "completed" props) as [cov|] eqn:Hco;
    destruct (lookup_prop "createdAt" props) as [crv|] eqn:Hcr;
      try (destruct (validateTodoObject_missing props ltac:(tauto))
             as (f & _ & _ & ->); discriminate).
    rewrite (validateTodoObject_present props idv textv cov crv) by done.
    destruct textv as [| | | |s| |]; simpl; try discriminate.
    destruct (isValid (validateText s)) eqn:Hs; simpl;
      [|rewrite Hs; discriminate].
    destruct (isValid (validateId idv)) eqn:Hv; simpl;
      [|rewrite Hv; discriminate].
    destruct cov as [| |b| | | |]; simpl; try discriminate.
    destruct crv as [| | | |d| |]; simpl; try discriminate.
    destruct (Date_valid d) eqn:Hd; simpl; [|discriminate].
    intros _. apply validateText_isValid in Hs.
    apply (proj1 (validateId_cases idv)) in Hv
      as (n & -> & Hn).
    by exists props, n, s, b, d.
  - intros (props & n & s & b & d & -> & Hid & Hn & Htext & Hs & Hco & Hcr & Hd).
    rewrite (validateTodoObject_present props _ _ _ _ Hid Htext Hco Hcr).
    apply validateText_isValid in Hs. simpl. rewrite Hs. simpl.
    assert (Hv : isValid (validateId (VNum n)) = true).
    { apply (proj1 (validateId_cases (VNum n))). by exists n. }
    rewrite Hv. simpl. by rewrite Hd.
Qed.

(** X6. [validateTodoObject] returns a valid result exactly for an object
    that has the four fields with: a string [text] of 1 to 100 code units
    after trimming, a number [id] greater than 0, a boolean [completed], and
    a string [createdAt] that the date parser accepts. *)
Theorem validateTodoObject_valid_iff (data : value) :
  accepts data = true
  <-> exists props n s b d,
        data = VObj props
        /\ lookup_prop "id" props = Some (VNum n) /\ 0 < n
        /\ lookup_prop "text" props = Some (VStr s)
        /\ (1 <= length (trim s) <= 100)%nat
        /\ lookup_prop "completed" props = Some (VBool b)
        /\ lookup_prop "createdAt" props = Some (VStr d)
        /\ Date_valid d = true.
Proof. exact (accepts_characterized data). Qed.

(** X7. [validateTodoObject] raises in one situation only: the value is an
    object with the four fields whose [text] is not a string (the call of
    [trim] fails). For null, primitives, arrays and objects with a missing
    field it returns a validation error instead. *)
Theorem validateTodoObject_raises_iff (data : value) (e : exn) :
  validateTodoObject data = Throw e
  <-> e = TypeError
      /\ exists props textv,
           data = VObj props
           /\ lookup_prop "text" props = Some textv
           /\ typeof textv <> TString
           /\ is_Some (lookup_prop "id" props)
           /\ is_Some (lookup_prop "completed" props)
           /\ is_Some (lookup_prop "createdAt" props).
Proof.
  split.
  - destruct data as [| | | | |elems|props];
      try (unfold validateTodoObject; simpl; rewrite ?orb_true_r;
           discriminate).
    destruct (lookup_prop "id" props) as [idv|] eqn:Hid;
    destruct (lookup_prop "text" props) as [textv|] eqn:Htext;
    destruct (lookup_prop "completed" props) as [cov|] eqn:Hco;
    destruct (lookup_prop "createdAt" props) as [crv|] eqn:Hcr;
      try (destruct (validateTodoObject_missing props ltac:(tauto))
             as (f & _ & _ & ->); discriminate).
    rewrite (validateTodoObject_present props idv textv cov crv) by done.
    destruct textv as [| | | |s| |]; simpl;
      try (intros [= <-]; split; [done|];
           eexists props, _; split_and!; eauto; discriminate).
    repeat case_match; discriminate.
  - intros (-> & props & textv & -> & Htext & Hty & [idv Hid] & [cov Hco]
            & [crv Hcr]).
    rewrite (validateTodoObject_present props idv textv cov crv) by done.
    by destruct textv.
Qed.

End ValidatorObject.

(** ** The task entity, beyond serialization *)

Section EntityMore.
Import TodoValidator.

(** X8. [TodoItem.isValid] answers [true] exactly for a task whose text is
    a string with at least one code unit after trimming and at most 100
    code units before trimming; [true] is its only truthy answer. Such a
    text is always accepted by [validateText]. *)
Theorem isValid_untrimmed_bound (todo : TodoItem.t) :
  (TodoItem.isValid todo = Ok (VBool true)
   <-> exists s, TodoItem.text todo = VStr s
                 /\ (1 <= length (trim s))%nat /\ (length s <= 100)%nat)
  /\ (forall v, TodoItem.isValid todo = Ok v -> truthy v = true ->
                v = VBool true)
  /\ (TodoItem.isValid todo = Ok (VBool true) ->
      exists s, TodoItem.text todo = VStr s
                /\ isValid (validateText s) = true).
Proof.
  assert (Hiff : TodoItem.isValid todo = Ok (VBool true)
   <-> exists s, TodoItem.text todo = VStr s
                 /\ (1 <= length (trim s))%nat /\ (length s <= 100)%nat).
  { unfold TodoItem.isValid.
    destruct (TodoItem.text todo) as [| |b|n|s|elems|props]; simpl;
      try (split; [discriminate | by intros (? & ? & ?)]).
    - destruct b; simpl; (split; [discriminate | by intros (? & ? & ?)]).
    - destruct (n =? 0); simpl; (split; [discriminate | by intros (? & ? & ?)]).
    - destruct s as [|c s]; simpl.
      + split; [discriminate|]. intros (s' & [= <-] & Hl & _). simpl in Hl. lia.
      + destruct (Nat.ltb_spec 0 (length (trim (c :: s)))); simpl.
        * destruct (Nat.leb_spec (length s) 99).
          -- split; [|done]. intros _. exists (c :: s).
             split_and!; [done | lia | simpl; lia].
          -- split; [discriminate|].
             intros (s' & [= <-] & _ & Hle). simpl in Hle. lia.
        * split; [discriminate|]. intros (s' & [= <-] & Hl & _). lia. }
  split; [exact Hiff|split].
  - unfold TodoItem.isValid. intros v.
    destruct (truthy (TodoItem.text todo)) eqn:Ht; simpl.
    + destruct (TodoItem.text todo); try discriminate.
      repeat case_match; intros [= <-]; simpl; try discriminate.
      by intros ->.
    + intros [= <-]. by rewrite Ht.
  - intros (s & Hs & Hl & Hle)%Hiff. exists s. split; [done|].
    apply validateText_isValid. pose proof (length_trim s). lia.
Qed.

(** The converse fails: 100 letters between two spaces pass [validateText]
    and fail [TodoItem.isValid]. *)
Example isValid_padded_text :
  isValid (validateText (lit " " ++ repeat_unit 97 100 ++ lit " ")) = true
  /\ TodoItem.isValid
       (TodoItem.new Demo.clock
          (VStr (lit " " ++ repeat_unit 97 100 ++ lit " ")) VNull)
     = Ok (VBool false).
Proof. split; reflexivity. Qed.

Lemma toggle_toggle_boolean (todo : TodoItem.t) :
  boolean_completed todo -> TodoItem.toggle (TodoItem.toggle todo) = todo.
Proof.
  destruct todo as [i t c d]. intros [b Hb]. simpl in Hb. subst c.
  unfold TodoItem.toggle. simpl. by rewrite negb_involutive.
Qed.

(** X9. Toggling a task twice gives back the task when its [completed]
    field is a boolean. For any other content of the field only the
    truthiness comes back, and a third toggle equals the first. *)
Theorem toggle_twice (todo : TodoItem.t) :
  (boolean_completed todo -> TodoItem.toggle (TodoItem.toggle todo) = todo)
  /\ truthy (TodoItem.completed (TodoItem.toggle (TodoItem.toggle todo)))
     = truthy (TodoItem.completed todo)
  /\ TodoItem.toggle (TodoItem.toggle (TodoItem.toggle todo))
     = TodoItem.toggle todo.
Proof.
  destruct todo as [i t c d]. unfold TodoItem.toggle, boolean_completed; simpl.
  split; [|split].
  - intros [b ->]. simpl. by rewrite negb_involutive.
  - by rewrite negb_involutive.
  - by rewrite negb_involutive.
Qed.

End EntityMore.

(** ** The controller: how operations change the collection *)

Section ControllerMore.
Import TodoValidator TodoList.

Implicit Types (app : TodoList.t) (id : Z) (c : Clock).

Lemma list_find_decompose {A} (P : A -> Prop) `{forall x, Decision (P x)}
    (l : list A) (i : nat) (x : A) :
  list_find P l = Some (i, x) ->
  exists l1 l2,
    l = l1 ++ x :: l2 /\ i = length l1 /\ Forall (fun y => ~ P y) l1 /\ P x.
Proof.
  revert i. induction l as [|y l IH]; intros i; simpl; [discriminate|].
  destruct (decide (P y)) as [Hy|Hy].
  - intros [= <- <-]. by exists [], l.
  - destruct (list_find P l) as [[j z]|]; simpl; [|discriminate].
    intros [= <- <-]. destruct (IH j eq_refl) as (l1 & l2 & -> & -> & Hl1 & Hx).
    exists (y :: l1), l2. split_and!; [done | done | by constructor | done].
Qed.

Lemma findTodo_decompose id app i todo :
  findTodo id app = Some (i, todo) ->
  exists l1 l2,
    todos app = l1 ++ todo :: l2 /\ i = length l1
    /\ Forall (fun todo' => id_is id todo' = false) l1
    /\ id_is id todo = true.
Proof.
  intros (l1 & l2 & Hl & Hi & Hl1 & Hx)%list_find_decompose.
  exists l1, l2. split_and!; try done.
  eapply Forall_impl; [exact Hl1|]. simpl. intros y Hy.
  by apply not_true_is_false.
Qed.

Lemma insert_middle {A} (l1 l2 : list A) (x y : A) :
  <[length l1 := y]> (l1 ++ x :: l2) = l1 ++ y :: l2.
Proof.
  replace (length l1) with (length l1 + 0)%nat by lia.
  by rewrite insert_app_r.
Qed.

(** The search either fails on every task or stops at a first match. *)
Lemma findTodo_cases id app :
  (absent id app /\ findTodo id app = None)
  \/ exists l1 todo l2,
       todos app = l1 ++ todo :: l2
       /\ Forall (fun todo' => id_is id todo' = false) l1
       /\ id_is id todo = true
       /\ findTodo id app = Some (length l1, todo).
Proof.
  destruct (findTodo id app) as [[i todo]|] eqn:Hf.
  - right. destruct (findTodo_decompose id app i todo Hf)
      as (l1 & l2 & Hl & -> & Hl1 & Hm).
    by exists l1, todo, l2.
  - left. split; [|done]. apply list_find_None in Hf.
    eapply Forall_impl; [exact Hf|]. simpl. intros y Hy.
    by apply not_true_is_false.
Qed.

Lemma toggleTodo_found id app l1 todo l2 :
  findTodo id app = Some (length l1, todo) ->
  todos app = l1 ++ todo :: l2 ->
  toggleTodo id app
  = render (saveTodos (set_todos (l1 ++ TodoItem.toggle todo :: l2) app)).
Proof.
  intros Hf Hl. unfold toggleTodo. rewrite Hf, Hl. by rewrite insert_middle.
Qed.

Lemma updateTodo_found id newText app l1 todo l2 :
  isValid (validateText newText) = true ->
  findTodo id app = Some (length l1, todo) ->
  todos app = l1 ++ todo :: l2 ->
  updateTodo id newText app
  = (true, render (saveTodos
       (set_todos (l1 ++ TodoItem.updateText newText todo :: l2) app))).
Proof.
  intros Hv Hf Hl. unfold updateTodo. rewrite Hv, Hf, Hl. simpl.
  by rewrite insert_middle.
Qed.

Lemma deleteTodo_found id app l1 todo l2 :
  findTodo id app = Some (length l1, todo) ->
  todos app = l1 ++ todo :: l2 ->
  deleteTodo id app
  = showInfo (Plain (Some "Task deleted!"%string))
      (render (saveTodos (set_todos (l1 ++ l2) app))).
Proof.
  intros Hf Hl. unfold deleteTodo, findTodoIndexById. rewrite Hf, Hl. simpl.
  by rewrite delete_middle.
Qed.

Lemma toggleTodo_absent id app : findTodo id app = None -> toggleTodo id app = app.
Proof. intros Hf. unfold toggleTodo. by rewrite Hf. Qed.

Lemma id_is_toggle id todo : id_is id (TodoItem.toggle todo) = id_is id todo.
Proof. by destruct todo. Qed.

(** X10. Calling [toggleTodo] twice with the same id gives back the
    collection, whether or not the id is present, provided the [completed]
    fields hold booleans. *)
Theorem toggleTodo_twice id app :
  Forall boolean_completed (todos app) ->
  todos (toggleTodo id (toggleTodo id app)) = todos app.
Proof.
  intros Hall.
  destruct (findTodo_cases id app)
    as [[_ Hf]|(l1 & todo & l2 & Hl & Hl1 & Hm & Hf)].
  - by rewrite !(toggleTodo_absent id app Hf).
  - rewrite (toggleTodo_found id app l1 todo l2 Hf Hl).
    set (app1 := render _).
    assert (Hf1 : findTodo id app1 = Some (length l1, TodoItem.toggle todo)).
    { apply (findTodo_first id app1 l1 _ l2); [done | done |].
      by rewrite id_is_toggle. }
    rewrite (toggleTodo_found id app1 l1 _ l2 Hf1 eq_refl). simpl.
    rewrite Hl in Hall. apply Forall_app in Hall as [_ Hall].
    apply Forall_cons in Hall as [Hb _].
    by rewrite (toggle_toggle_boolean todo Hb).
Qed.

Lemma toggleTodo_twice_witness :
  todos (toggleTodo 2 (toggleTodo 2
           (Demo.app [Demo.task 1 "a" false; Demo.task 2 "b" true] "")))
  = todos (Demo.app [Demo.task 1 "a" false; Demo.task 2 "b" true] "").
Proof.
  apply (toggleTodo_twice 2
           (Demo.app [Demo.task 1 "a" false; Demo.task 2 "b" true] "")).
  repeat constructor; by eexists.
Defined.

Lemma completed_count_middle (l1 l2 : list TodoItem.t) (todo : TodoItem.t) :
  length (List.filter (fun t => truthy (TodoItem.completed t))
            (l1 ++ todo :: l2))
  = (length (List.filter (fun t => truthy (TodoItem.completed t)) l1)
     + (if truthy (TodoItem.completed todo) then 1 else 0)
     + length (List.filter (fun t => truthy (TodoItem.completed t)) l2))%nat.
Proof.
  rewrite List.filter_app, length_app. simpl.
  destruct (truthy (TodoItem.completed todo)); simpl; lia.
Qed.

(** X11. When [toggleTodo] finds the id, the total stays and the number of
    completed tasks moves by exactly one: up when the task found was not
    completed, down when it was. *)
Theorem toggleTodo_stats id app todo :
  findTodoById id app = Some todo ->
  total (getStats (toggleTodo id app)) = total (getStats app)
  /\ (completed (getStats (toggleTodo id app))
      + (if truthy (TodoItem.completed todo) then 1 else 0)
      = completed (getStats app)
        + (if truthy (TodoItem.completed todo) then 0 else 1))%nat.
Proof.
  unfold findTodoById.
  destruct (findTodo_cases id app)
    as [[_ Hf]|(l1 & todo' & l2 & Hl & Hl1 & Hm & Hf)];
    rewrite Hf; simpl; [discriminate|]. intros [= ->].
  rewrite (toggleTodo_found id app l1 todo l2 Hf Hl).
  unfold getStats, getCompletedTodos; simpl. rewrite Hl.
  rewrite !completed_count_middle, !length_app. simpl.
  destruct (truthy (TodoItem.completed todo)); simpl; lia.
Qed.

Lemma toggleTodo_stats_witness :
  total (getStats (toggleTodo 1
     (Demo.app [Demo.task 1 "a" false; Demo.task 2 "b" false] "")))
  = total (getStats
     (Demo.app [Demo.task 1 "a" false; Demo.task 2 "b" false] ""))
  /\ (completed (getStats (toggleTodo 1
        (Demo.app [Demo.task 1 "a" false; Demo.task 2 "b" false] "")))
      + (if truthy (TodoItem.completed (Demo.task 1 "a" false)) then 1 else 0)
      = completed (getStats
          (Demo.app [Demo.task 1 "a" false; Demo.task 2 "b" false] ""))
        + (if truthy (TodoItem.completed (Demo.task 1 "a" false))
           then 0 else 1))%nat.
Proof.
  apply (toggleTodo_stats 1
           (Demo.app [Demo.task 1 "a" false; Demo.task 2 "b" false] "")
           (Demo.task 1 "a" false)).
  reflexivity.
Defined.

End ControllerMore.

Section ControllerOps.
Import TodoValidator TodoList.

Implicit Types (app : TodoList.t) (id : Z) (c : Clock).




Lemma map_middle {A B} (f : A -> B) (l1 l2 : list A) (x y : A) :
  f y = f x -> map f (l1 ++ y :: l2) = map f (l1 ++ x :: l2).
Proof. intros Hf. rewrite !map_app. simpl. by rewrite Hf. Qed.



(** X14. Whatever the id, [toggleTodo] neither adds, removes nor moves a
    task, and changes no [id], [text] or [createdAt]. *)
Theorem toggleTodo_keeps_identity id app :
  length (todos (toggleTodo id app)) = length (todos app)
  /\ map TodoItem.id (todos (toggleTodo id app)) = map TodoItem.id (todos app)
  /\ map TodoItem.text (todos (toggleTodo id app))
     = map TodoItem.text (todos app)
  /\ map TodoItem.createdAt (todos (toggleTodo id app))
     = map TodoItem.createdAt (todos app).
Proof.
  destruct (findTodo_cases id app)
    as [[_ Hf]|(l1 & todo & l2 & Hl & Hl1 & Hm & Hf)].
  - by rewrite (toggleTodo_absent id app Hf).
  - rewrite (toggleTodo_found id app l1 todo l2 Hf Hl). simpl. rewrite Hl.
    split_and!; [rewrite !length_app; simpl; lia | by apply map_middle..].
Qed.

(** X15. When exactly one task has the id, [deleteTodo] leaves a
    collection one shorter in which the id is absent, so that deleting the
    same id again changes nothing, not even the trace. *)
Theorem deleteTodo_unique_id id app l1 todo l2 :
  todos app = l1 ++ todo :: l2 ->
  Forall (fun todo' => id_is id todo' = false) l1 ->
  id_is id todo = true ->
  Forall (fun todo' => id_is id todo' = false) l2 ->
  S (length (todos (deleteTodo id app))) = length (todos app)
  /\ absent id (deleteTodo id app)
  /\ deleteTodo id (deleteTodo id app) = deleteTodo id app.
Proof.
  intros Hl Hl1 Hm Hl2.
  pose proof (findTodo_first id app l1 todo l2 Hl Hl1 Hm) as Hf.
  rewrite (deleteTodo_found id app l1 todo l2 Hf Hl).
  set (app1 := showInfo _ _).
  assert (Ha : absent id app1).
  { unfold absent. simpl. by apply Forall_app. }
  split_and!; [|done|].
  - simpl. rewrite Hl, !length_app. simpl. lia.
  - unfold deleteTodo, findTodoIndexById.
    by rewrite (findTodo_absent id app1 Ha).
Qed.

Lemma deleteTodo_unique_id_witness :
  S (length (todos (deleteTodo 2
       (Demo.app [Demo.task 1 "a" false; Demo.task 2 "b" false] ""))))
  = length (todos (Demo.app [Demo.task 1 "a" false; Demo.task 2 "b" false] ""))
  /\ absent 2 (deleteTodo 2
       (Demo.app [Demo.task 1 "a" false; Demo.task 2 "b" false] ""))
  /\ deleteTodo 2 (deleteTodo 2
       (Demo.app [Demo.task 1 "a" false; Demo.task 2 "b" false] ""))
     = deleteTodo 2
         (Demo.app [Demo.task 1 "a" false; Demo.task 2 "b" false] "").
Proof.
  apply (deleteTodo_unique_id 2
           (Demo.app [Demo.task 1 "a" false; Demo.task 2 "b" false] "")
           [Demo.task 1 "a" false] (Demo.task 2 "b" false) []);
    [reflexivity | by repeat constructor | reflexivity | constructor].
Defined.

Lemma filter_negb_twice {A} (f : A -> bool) (l : list A) :
  List.filter (fun x => negb (f x)) (List.filter (fun x => negb (f x)) l)
  = List.filter (fun x => negb (f x)) l
  /\ List.filter f (List.filter (fun x => negb (f x)) l) = [].
Proof.
  induction l as [|x l [IH1 IH2]]; simpl; [done|].
  destruct (f x) eqn:Hx; simpl; [done|]. rewrite Hx. simpl.
  by rewrite IH1, IH2.
Qed.

(** X16. [clearCompletedTodos] keeps the tasks that are not completed, in
    their order, and nothing else: afterwards no task is completed, the
    total is the former incomplete count, and a second call leaves the
    collection as the first one did. *)
Theorem clearCompletedTodos_keeps_incomplete app :
  todos (clearCompletedTodos app) = getIncompleteTodos app
  /\ getCompletedTodos (clearCompletedTodos app) = []
  /\ completed (getStats (clearCompletedTodos app)) = 0%nat
  /\ total (getStats (clearCompletedTodos app)) = incomplete (getStats app)
  /\ todos (clearCompletedTodos (clearCompletedTodos app))
     = todos (clearCompletedTodos app).
Proof.
  destruct (filter_negb_twice (fun t => truthy (TodoItem.completed t))
              (todos app)) as [H1 H2].
  unfold clearCompletedTodos, getStats, getCompletedTodos, getIncompleteTodos.
  simpl. by rewrite H1, H2.
Qed.

End ControllerOps.

(** ** Startup and the way through storage *)

Section Startup.
Context `{Platform}.

Lemma keep_text_bearing_result (data kept : value) :
  TodoStorage.keep_text_bearing data = Ok kept ->
  kept = VNull \/ text_bearing kept = true.
Proof.
  unfold TodoStorage.keep_text_bearing.
  destruct data as [| | | | |elems|props]; simpl;
    try discriminate; try (intros [= <-]; by left).
  destruct (lookup_prop "text" props) as [v|] eqn:Hv; simpl.
  - destruct (TodoStorage.is_defined v) eqn:Hd; intros [= <-]; [right|by left].
    simpl. by rewrite Hv.
  - intros [= <-]. by left.
Qed.

Lemma array_map_keep_result (i : nat) (elems mapped : list value) :
  array_map (fun _ => TodoStorage.keep_text_bearing) i elems = Ok mapped ->
  Forall (fun kept => kept = VNull \/ text_bearing kept = true) mapped.
Proof.
  revert i mapped. induction elems as [|data elems IH]; intros i mapped; simpl.
  - intros [= <-]. constructor.
  - destruct (TodoStorage.keep_text_bearing data) as [kept|e] eqn:Hk; simpl;
      [|discriminate].
    destruct (array_map _ (S i) elems) as [rest|e] eqn:Hr; simpl;
      [|discriminate].
    intros [= <-]. constructor; [by eapply keep_text_bearing_result | eauto].
Qed.

(** Whatever the storage holds, the adapter returns text-bearing records
    only. *)
Lemma storage_loadTodos_text_bearing (getItem : outcome (option jsstring)) :
  Forall (fun data => text_bearing data = true) (TodoStorage.loadTodos getItem).
Proof.
  unfold TodoStorage.loadTodos.
  destruct getItem as [[stored|]|e]; simpl; try constructor.
  destruct (is_empty stored); simpl; [constructor|].
  destruct (JSON_parse stored) as [v|e]; simpl; [|constructor].
  destruct v as [| | | | |elems|props]; simpl; try constructor.
  destruct (array_map _ 0 elems) as [mapped|e] eqn:Hm; simpl; [|constructor].
  apply array_map_keep_result in Hm.
  induction Hm as [|kept mapped [->|Hk] _ IH]; simpl; [constructor|done|].
  destruct (truthy kept); [by constructor | done].
Qed.

Lemma fromJSON_text_bearing (c : Clock) (data : value) :
  text_bearing data = true ->
  exists todo,
    TodoItem.fromJSON c data = Ok todo
    /\ TodoStorage.is_defined (TodoItem.text todo) = true
    /\ prop data "text" = Ok (TodoItem.text todo)
    /\ prop data "completed" = Ok (TodoItem.completed todo)
    /\ prop data "createdAt" = Ok (TodoItem.createdAt todo).
Proof.
  destruct data as [| | | | |elems|props]; simpl; try discriminate.
  destruct (lookup_prop "text" props) as [v|] eqn:Hv; [|discriminate].
  intros Hd. unfold TodoItem.fromJSON. simpl. rewrite Hv. simpl.
  eexists. split; [reflexivity|]. simpl. done.
Qed.

Lemma array_map_fromJSON_text_bearing (clock : nat -> Clock) (i : nat)
    (stored : list value) :
  Forall (fun data => text_bearing data = true) stored ->
  exists loaded,
    array_map (fun i data => TodoItem.fromJSON (clock i) data) i stored
    = Ok loaded
    /\ length loaded = length stored
    /\ Forall (fun todo => TodoStorage.is_defined (TodoItem.text todo) = true)
         loaded.
Proof.
  intros Hall. revert i.
  induction Hall as [|data stored Hd _ IH]; intros i; simpl.
  - exists []. by split_and!.
  - destruct (fromJSON_text_bearing (clock i) data Hd) as (todo & -> & Ht & _).
    destruct (IH (S i)) as (loaded & -> & Hlen & Hl). simpl.
    exists (todo :: loaded). split_and!; [done | simpl; lia | by constructor].
Qed.

(** X17. The startup load of the controller, [loadTodos], never raises,
    whatever [localStorage] returns or holds: it yields one task per record
    the adapter returned, each with a [text] that is not undefined, and the
    empty collection when the key is absent, the read raises or the stored
    string does not parse. *)
Theorem loadTodos_never_raises (clock : nat -> Clock)
    (getItem : outcome (option jsstring)) (app : TodoList.t) :
  (exists loaded,
     TodoList.loadTodos clock getItem app = Ok (TodoList.set_todos loaded app)
     /\ length loaded = length (TodoStorage.loadTodos getItem)
     /\ Forall (fun todo => TodoStorage.is_defined (TodoItem.text todo) = true)
          loaded)
  /\ TodoList.loadTodos clock (Ok None) app = Ok (TodoList.set_todos [] app)
  /\ (forall e, TodoList.loadTodos clock (Throw e) app
                = Ok (TodoList.set_todos [] app))
  /\ (forall stored e, JSON_parse stored = Throw e ->
        TodoList.loadTodos clock (Ok (Some stored)) app
        = Ok (TodoList.set_todos [] app)).
Proof.
  assert (Hload : forall app0, exists loaded,
     TodoList.loadTodos clock getItem app0 = Ok (TodoList.set_todos loaded app0)
     /\ length loaded = length (TodoStorage.loadTodos getItem)
     /\ Forall (fun todo => TodoStorage.is_defined (TodoItem.text todo) = true)
          loaded).
  { intros app0. unfold TodoList.loadTodos.
    destruct (array_map_fromJSON_text_bearing clock 0 _
                (storage_loadTodos_text_bearing getItem))
      as (loaded & -> & Hlen & Hl).
    by exists loaded. }
  split_and!; try done.
  - intros stored e Hp. unfold TodoList.loadTodos, TodoStorage.loadTodos. simpl.
    destruct (is_empty stored); simpl; [done|]. by rewrite Hp.
Qed.

Lemma array_map_fromJSON_toJSON (clock : nat -> Clock) (i : nat)
    (saved : list TodoItem.t) :
  Forall (fun todo => truthy (TodoItem.id todo) = true) saved ->
  array_map (fun i data => TodoItem.fromJSON (clock i) data) i
    (map TodoItem.toJSON saved)
  = Ok saved.
Proof.
  intros Hall. revert i. induction Hall as [|todo saved Hid _ IH]; intros i;
    [done|].
  cbn [map array_map]. rewrite fromJSON_toJSON, Hid, IH. simpl.
  by destruct todo.
Qed.

Lemma loadTodos_of_toJSON (stored : jsstring) (saved : list TodoItem.t) :
  stored <> [] ->
  JSON_parse stored = Ok (VArr (map TodoItem.toJSON saved)) ->
  Forall (fun todo => TodoStorage.is_defined (TodoItem.text todo) = true) saved ->
  TodoStorage.loadTodos (Ok (Some stored)) = map TodoItem.toJSON saved.
Proof.
  intros Hne Hp Hall. unfold TodoStorage.loadTodos. simpl.
  destruct stored; [done|]. simpl. rewrite Hp. simpl.
  assert (Hnn : Forall (fun data => nullish data = false)
                  (map TodoItem.toJSON saved)).
  { clear -saved. induction saved as [|todo saved IH]; simpl; by constructor. }
  destruct (array_map_keep 0 _ Hnn) as (mapped & -> & Hf). simpl.
  rewrite Hf. clear Hp Hnn Hf. induction Hall as [|todo saved Ht _ IH]; simpl; [done|].
  rewrite Ht. by rewrite IH.
Qed.

(** X18. Save, then load: when the stored string is not empty and parses
    to the array [saveTodos] serialized, and every saved task has a [text]
    that is not undefined and a truthy [id], the adapter returns the
    serialized tasks and the controller rebuilds exactly the saved
    collection, whatever the clock reads. *)
Theorem save_then_load (clock : nat -> Clock) (stored : jsstring)
    (saved : list TodoItem.t) (data : value) (app : TodoList.t) :
  TodoStorage.saveTodos saved = SetItem TodoStorage.storageKey data ->
  stored <> [] ->
  JSON_parse stored = Ok data ->
  Forall (fun todo => TodoStorage.is_defined (TodoItem.text todo) = true
                      /\ truthy (TodoItem.id todo) = true) saved ->
  TodoStorage.loadTodos (Ok (Some stored)) = map TodoItem.toJSON saved
  /\ TodoList.loadTodos clock (Ok (Some stored)) app
     = Ok (TodoList.set_todos saved app).
Proof.
  intros [= <-] Hne Hp Hall.
  apply Forall_and in Hall as [Htext Hid].
  pose proof (loadTodos_of_toJSON stored saved Hne Hp Htext) as Hl.
  split; [done|]. unfold TodoList.loadTodos. rewrite Hl.
  by rewrite array_map_fromJSON_toJSON.
Qed.

End Startup.

Section StartupExamples.

Lemma save_then_load_witness :
  @TodoStorage.loadTodos Demo.platform (Ok (Some Demo.doc_one))
  = map TodoItem.toJSON [Demo.task 1700000000000 "Buy milk" false]
  /\ @TodoList.loadTodos Demo.platform (fun _ => Demo.clock)
       (Ok (Some Demo.doc_one)) Demo.app_one
     = Ok (TodoList.set_todos [Demo.task 1700000000000 "Buy milk" false]
             Demo.app_one).
Proof.
  apply (@save_then_load Demo.platform (fun _ => Demo.clock) Demo.doc_one
           [Demo.task 1700000000000 "Buy milk" false]
           (VArr [Demo.buy_milk]) Demo.app_one).
  - reflexivity.
  - discriminate.
  - reflexivity.
  - repeat constructor.
Defined.

(** A stored record with [id] 0 comes back with the clock reading as id. *)
Example loadTodos_zero_id :
  TodoItem.fromJSON Demo.clock
    (VObj [("id", VNum 0); ("text", VStr (lit "a"))]%string)
  = Ok {| TodoItem.id := VNum 1700000000000; TodoItem.text := VStr (lit "a");
          TodoItem.completed := VUndefined;
          TodoItem.createdAt := VUndefined |}.
Proof. reflexivity. Qed.

End StartupExamples.

(** ** Import and the shape of the tasks it admits *)

Section ImportMore.
Context `{Platform}.
Import TodoValidator TodoList.

(** The two ways [importTodos] ends. *)
Lemma importTodos_cases (clock : nat -> Clock) (jsonString : jsstring)
    (app : TodoList.t) :
  (exists e,
     importTodos clock jsonString app = (false, showError (ImportFailed e) app))
  \/ (exists elems imported,
        JSON_parse jsonString = Ok (VArr elems)
        /\ forallb accepts elems = true
        /\ Forall2 same_fields imported elems
        /\ importTodos clock jsonString app
           = (true,
              showSuccess (Plain (Some "Todos imported successfully!"%string))
                (render (saveTodos (set_todos imported app))))).
Proof.
  unfold importTodos.
  destruct (JSON_parse jsonString) as [todoData|e]; simpl; [|by eauto].
  destruct todoData as [| | | | |elems|props]; simpl; try (by eauto).
  pose proof (validate_each_accepts elems) as Hv.
  destruct (validate_each elems) as [[]|e]; simpl; [|by eauto].
  destruct (array_map_fromJSON clock 0 elems Hv) as (imported & Hm & Hall).
  rewrite Hm. simpl. right. by exists elems, imported.
Qed.

Lemma same_fields_well_formed (todo : TodoItem.t) (data : value) :
  accepts data = true -> same_fields todo data -> well_formed todo.
Proof.
  intros (props & n & s & b & d & -> & Hid & Hn & Htext & Hs & Hco & Hcr & Hd)
           %accepts_characterized (Hi & Ht & Hc & Hr).
  simpl in *. rewrite Hid in Hi. rewrite Htext in Ht. rewrite Hco in Hc.
  rewrite Hcr in Hr. simpl in *.
  injection Hi as Hi. injection Ht as Ht. injection Hc as Hc.
  injection Hr as Hr.
  unfold well_formed, boolean_completed. rewrite <- Hi, <- Ht, <- Hc, <- Hr.
  split_and!; eauto.
Qed.

Lemma well_formed_accepts (todo : TodoItem.t) :
  well_formed todo -> accepts (TodoItem.toJSON todo) = true.
Proof.
  intros ((n & Hid & Hn) & (s & Htext & Hs) & (b & Hco) & (d & Hcr & Hd)).
  apply accepts_characterized.
  destruct todo as [i t c r]. simpl in *. subst.
  by eexists _, n, s, b, d.
Qed.

Lemma well_formed_truthy_id (todo : TodoItem.t) :
  well_formed todo -> truthy (TodoItem.id todo) = true.
Proof.
  intros ((n & -> & Hn) & _). simpl. apply negb_true_iff, Z.eqb_neq. lia.
Qed.

(** X19. Every task of a collection that [importTodos] installed is well
    formed: its [id] is a number greater than 0, its [text] a string of 1
    to 100 code units after trimming, its [completed] a boolean and its
    [createdAt] a string the date parser accepts. *)
Theorem importTodos_installs_well_formed (clock : nat -> Clock)
    (jsonString : jsstring) (app : TodoList.t) :
  (importTodos clock jsonString app).1 = true ->
  Forall well_formed (todos (importTodos clock jsonString app).2).
Proof.
  destruct (importTodos_cases clock jsonString app)
    as [[e ->]|(elems & imported & _ & Hacc & Hsame & ->)]; simpl;
    [discriminate|].
  intros _. clear -Hacc Hsame.
  induction Hsame as [|todo data imported elems Hs _ IH]; [constructor|].
  simpl in Hacc. apply andb_prop in Hacc as [Hd Hrest].
  constructor; [by eapply same_fields_well_formed | auto].
Qed.

(** X20. Export, then import: a string that parses to the serialized form
    of a collection of well-formed tasks is imported with result [true], and
    the collection installed is that collection, task for task, whatever
    the clock reads and whatever was in memory before. *)
Theorem import_of_serialized (clock : nat -> Clock) (jsonString : jsstring)
    (saved : list TodoItem.t) (app : TodoList.t) :
  JSON_parse jsonString = Ok (VArr (map TodoItem.toJSON saved)) ->
  Forall well_formed saved ->
  importTodos clock jsonString app
  = (true,
     showSuccess (Plain (Some "Todos imported successfully!"%string))
       (render (saveTodos (set_todos saved app)))).
Proof.
  intros Hp Hwf. unfold importTodos. rewrite Hp. simpl.
  assert (Hacc : forallb accepts (map TodoItem.toJSON saved) = true).
  { clear Hp. induction Hwf as [|todo saved Hw _ IH]; [done|].
    cbn [map forallb]. by rewrite (well_formed_accepts todo Hw), IH. }
  pose proof (validate_each_accepts (map TodoItem.toJSON saved)) as Hv.
  destruct (validate_each (map TodoItem.toJSON saved)) as [[]|e]; simpl;
    [|congruence].
  rewrite array_map_fromJSON_toJSON; [done|].
  eapply Forall_impl; [exact Hwf|]. apply well_formed_truthy_id.
Qed.

End ImportMore.

Section ImportMoreExamples.
Import TodoList.

Lemma importTodos_installs_well_formed_witness :
  Forall (@well_formed Demo.platform)
    (todos (@importTodos Demo.platform (fun _ => Demo.clock) Demo.doc_one
              Demo.app_one).2).
Proof.
  apply (@importTodos_installs_well_formed Demo.platform (fun _ => Demo.clock)
           Demo.doc_one Demo.app_one).
  reflexivity.
Defined.

Lemma import_of_serialized_witness :
  @importTodos Demo.platform (fun _ => Demo.clock) Demo.doc_one Demo.app_one
  = (true,
     showSuccess (Plain (Some "Todos imported successfully!"%string))
       (render (saveTodos
          (set_todos [Demo.task 1700000000000 "Buy milk" false]
             Demo.app_one)))).
Proof.
  apply (@import_of_serialized Demo.platform (fun _ => Demo.clock)
           Demo.doc_one [Demo.task 1700000000000 "Buy milk" false]
           Demo.app_one).
  - reflexivity.
  - repeat constructor; simpl.
    + exists 1700000000000. split; [reflexivity | lia].
    + exists (lit "Buy milk"). split; [reflexivity | vm_compute; lia].
    + by exists false.
    + exists Demo.created. split; reflexivity.
Defined.

End ImportMoreExamples.

(** ** The class of the unit tests against the controller *)

Section TestClass.
Import TodoValidator TodoList.



Example test_addTodo_trims :
  (fun app => map TodoItem.text (todos app))
    <$> match TestTodoList.addTodo Demo.clock (Demo.app [] "  Buy milk  ") with
        | Ok app => Some app
        | Throw _ => None
        end
  = Some [VStr (lit "Buy milk")].
Proof. reflexivity. Qed.

End TestClass.

(** ** The collection handed to storage and to the renderer *)

Section Sync.
Context `{Platform}.
Import TodoValidator TodoList.

Lemma last_saved_app (tr tr' : list effect) :
  last_saved (tr ++ tr')
  = match last_saved tr' with
    | Some data => Some data
    | None => last_saved tr
    end.
Proof.
  induction tr as [|e tr IH]; simpl.
  - by destruct (last_saved tr').
  - rewrite IH. by destruct (last_saved tr').
Qed.

Lemma last_rendered_app (tr tr' : list effect) :
  last_rendered (tr ++ tr')
  = match last_rendered tr' with
    | Some shown => Some shown
    | None => last_rendered tr
    end.
Proof.
  induction tr as [|e tr IH]; simpl.
  - by destruct (last_rendered tr').
  - rewrite IH. by destruct (last_rendered tr').
Qed.

Ltac sync_step :=
  unfold quiet, last_calls_current, showError, showSuccess, showInfo,
    focusInput, clearInput, render, saveTodos, emit, set_todos,
    TodoStorage.saveTodos, TodoStorage.storageKey;
  simpl; rewrite ?last_saved_app, ?last_rendered_app; simpl; auto.

Lemma run_quiet_or_current (op : operation) (app : TodoList.t) :
  quiet app (run op app) \/ last_calls_current (run op app).
Proof.
  destruct op as [c|id|id|id newText| | |clock jsonString|text]; simpl.
  - unfold addTodo. destruct (todoInput app) as [raw|]; [|by left].
    destruct (isValid (validateText raw)); simpl; [right|left]; sync_step.
  - unfold toggleTodo. destruct (findTodo id app) as [[i todo]|];
      [right; sync_step | by left].
  - unfold deleteTodo. destruct (findTodoIndexById id app) as [i|];
      [right; sync_step | by left].
  - unfold updateTodo.
    destruct (isValid (validateText newText)); simpl; [|left; sync_step].
    destruct (findTodo id app) as [[i todo]|]; [right; sync_step | by left].
  - right. unfold clearAllTodos. sync_step.
  - right. unfold clearCompletedTodos. sync_step.
  - destruct (importTodos_cases clock jsonString app)
      as [[e ->]|(elems & imported & _ & _ & _ & ->)]; simpl;
      [left | right]; sync_step.
  - by left.
Qed.

(** X22. For every controller operation: either it calls [setItem] and
    [renderTodos], and then the last [setItem] call was given the
    serialized collection now in memory and the last [renderTodos] call was
    given that collection; or it leaves the collection and the last calls
    as they were. Hence an operation that changes the collection always
    hands the new collection to both calls, and no operation lets the last
    calls fall behind the collection. (The statement is about the calls the
    controller makes, not about what the browser stores or draws.) *)
Theorem operations_pass_current_collection
    (op : operation) (app : TodoList.t) :
  (quiet app (run op app) \/ last_calls_current (run op app))
  /\ (last_calls_current app -> last_calls_current (run op app))
  /\ (todos (run op app) <> todos app -> last_calls_current (run op app)).
Proof.
  split; [apply run_quiet_or_current|].
  destruct (run_quiet_or_current op app) as [(Ht & Hs & Hr)|Hsync];
    [|by split].
  split.
  - intros [Hs0 Hr0]. unfold last_calls_current. by rewrite Ht, Hs, Hr.
  - intros Hne. by destruct Hne.
Qed.

End Sync.

Section SyncExamples.
Import TodoList.

(** Right after startup no write has been attempted, whatever was
    loaded. *)
Example last_calls_after_first_operation :
  last_saved (trace Demo.app_one) = None
  /\ @last_calls_current (@run Demo.platform (ToggleTodo 1) Demo.app_one).
Proof. split; [reflexivity | split; reflexivity]. Qed.

End SyncExamples.

(** ** What every operation keeps true of the tasks *)

Section Invariant.
Context `{Platform}.
Import TodoValidator TodoList.

Lemma Forall_List_filter {A} (P : A -> Prop) (f : A -> bool) (l : list A) :
  Forall P l -> Forall P (List.filter f l).
Proof.
  induction 1 as [|x l Hx _ IH]; simpl; [constructor|].
  destruct (f x); [by constructor | done].
Qed.

Lemma Forall_middle {A} (P : A -> Prop) (l1 l2 : list A) (x y : A) :
  (P x -> P y) -> Forall P (l1 ++ x :: l2) -> Forall P (l1 ++ y :: l2).
Proof.
  intros Hxy [H1 H2]%Forall_app. apply Forall_cons in H2 as [Hx H2].
  apply Forall_app. split; [done|]. constructor; auto.
Qed.

Lemma Forall_drop_middle {A} (P : A -> Prop) (l1 l2 : list A) (x : A) :
  Forall P (l1 ++ x :: l2) -> Forall P (l1 ++ l2).
Proof.
  intros [H1 H2]%Forall_app. apply Forall_cons in H2 as [_ H2].
  by apply Forall_app.
Qed.

(** X24. If every task has a [text] that is a string of 1 to 100 code
    units after trimming and a boolean [completed], then this is still so
    after any controller operation: adding, toggling, deleting, updating,
    clearing, importing, or typing into the input field. *)
Theorem operations_keep_tasks_sound (op : operation) (app : TodoList.t) :
  Forall (fun todo => text_in_bounds todo /\ boolean_completed todo)
    (todos app) ->
  Forall (fun todo => text_in_bounds todo /\ boolean_completed todo)
    (todos (run op app)).
Proof.
  intros Hall.
  destruct op as [c|id|id|id newText| | |clock jsonString|text]; simpl.
  - unfold addTodo. destruct (todoInput app) as [raw|]; [|done].
    destruct (isValid (validateText raw)) eqn:Hv; simpl; [|done].
    apply Forall_app. split; [done|]. constructor; [|constructor].
    split; [|by exists false]. exists raw. split; [done|].
    by apply validateText_isValid.
  - destruct (findTodo_cases id app)
      as [[_ Hf]|(l1 & todo & l2 & Hl & _ & _ & Hf)].
    + by rewrite (toggleTodo_absent id app Hf).
    + rewrite (toggleTodo_found id app l1 todo l2 Hf Hl). simpl.
      rewrite Hl in Hall. revert Hall. apply Forall_middle.
      intros [Ht _]. split; [by destruct todo | by eexists].
  - destruct (findTodo_cases id app)
      as [[_ Hf]|(l1 & todo & l2 & Hl & _ & _ & Hf)].
    + unfold deleteTodo, findTodoIndexById. by rewrite Hf.
    + rewrite (deleteTodo_found id app l1 todo l2 Hf Hl). simpl.
      rewrite Hl in Hall. by eapply Forall_drop_middle.
  - destruct (isValid (validateText newText)) eqn:Hv.
    + destruct (findTodo_cases id app)
        as [[_ Hf]|(l1 & todo & l2 & Hl & _ & _ & Hf)].
      * unfold updateTodo. by rewrite Hv, Hf.
      * rewrite (updateTodo_found id newText app l1 todo l2 Hv Hf Hl). simpl.
        rewrite Hl in Hall. revert Hall. apply Forall_middle.
        intros [_ Hb]. split; [|by destruct todo].
        exists (trim newText). split; [by destruct todo|].
        rewrite trim_idempotent. by apply validateText_isValid.
    + unfold updateTodo. by rewrite Hv.
  - constructor.
  - by apply Forall_List_filter.
  - destruct (importTodos_cases clock jsonString app)
      as [[e ->]|(elems & imported & _ & Hacc & Hsame & ->)]; simpl; [done|].
    clear -Hacc Hsame.
    induction Hsame as [|todo data imported elems Hs _ IH]; [constructor|].
    simpl in Hacc. apply andb_prop in Hacc as [Hd Hrest].
    constructor; [|auto].
    destruct (same_fields_well_formed todo data Hd Hs) as (_ & Ht & Hb & _).
    done.
  - done.
Qed.

End Invariant.

Section InvariantExamples.
Import TodoList.

Lemma operations_keep_tasks_sound_witness :
  Forall (fun todo => text_in_bounds todo /\ boolean_completed todo)
    (todos (@run Demo.platform (UpdateTodo 1 (lit "  Buy bread "))
              Demo.app_one)).
Proof.
  apply (@operations_keep_tasks_sound Demo.platform
           (UpdateTodo 1 (lit "  Buy bread ")) Demo.app_one).
  repeat constructor.
  - exists (lit "Buy milk"). split; [reflexivity | vm_compute; lia].
  - by exists false.
Defined.

End InvariantExamples.
